(** * setprotocol.js: contract resolver cache and ERC20 facade

    A shallow embedding of

    - [src/wrappers/set_protocol/ProtocolContractWrapper.ts]: the sixteen
      [load...] methods and the [cache] object they memoize into;
    - [src/wrappers/set_protocol/ProtocolViewerWrapper.ts]: the batch reads;
    - [src/api/ERC20API.ts]: the facade methods and their private
      assertions;

    together with what the specification and the integration tests fix
    of the state gate, the bid price view and the price trigger of
    [RebalancingAPI] and [RebalancingManagerAPI].

    Promises are modelled by their settlement ([Resolved] or [Rejected]);
    objects with identity (contract handles, wrapper caches) live in an
    explicit store, so that "the same object" is equality of references. *)

From Stdlib Require Import String Ascii NArith Lia DecimalString.
From stdpp Require Import gmap strings list fin_maps.

(* ================================================================== *)
(** * Text: the few string operations the sources rely on *)
(* ================================================================== *)

Module Text.

(** The characters that cannot be written inside a literal. *)
Definition dq : string := String (ascii_of_nat 34) EmptyString.
Definition nl : string := String (ascii_of_nat 10) EmptyString.

(** [is_prefix p s]: [s] starts with [p]. *)
Fixpoint is_prefix (p s : string) : bool :=
  match p, s with
  | EmptyString, _ => true
  | String a p', String b s' => bool_decide (a = b) && is_prefix p' s'
  | String _ _, EmptyString => false
  end.

(** [includes hay needle]: JavaScript's [hay.includes(needle)]. *)
Fixpoint includes (hay needle : string) : bool :=
  is_prefix needle hay ||
  match hay with
  | EmptyString => false
  | String _ hay' => includes hay' needle
  end.

(** [BigNumber.prototype.toString] on a non-negative integer. *)
Definition toString (n : N) : string :=
  NilZero.string_of_uint (N.to_uint n).

End Text.

(* ================================================================== *)
(** * Values, promises and the process store *)
(* ================================================================== *)

(** [Address] of [types/common]: a plain string at run time. *)
Definition Address : Type := string.

(** The options object of a call ([Tx] of [types/common]); [{}] is
    [no_options]. *)
Record Tx : Type := MkTx {
  from : option Address;
  gas : option N;
  gasPrice : option N;
}.

Definition no_options : Tx := MkTx None None None.

(** The generated contract bindings imported from [set-protocol-contracts]
    by [ProtocolContractWrapper.ts], one per ABI kind. *)
Inductive ContractKind : Type :=
  | AuthorizableContract
  | CoreContract
  | ERC20DetailedContract
  | ExchangeIssuanceModuleContract
  | KyberNetworkWrapperContract
  | ProtocolViewerContract
  | RebalancingSetIssuanceModuleContract
  | RebalancingSetExchangeIssuanceModuleContract
  | RebalanceAuctionModuleContract
  | RebalancingSetTokenContract
  | MedianContract
  | SetTokenContract
  | TimeLockUpgradeContract
  | TransferProxyContract
  | WhiteListContract
  | VaultContract.

#[global] Instance ContractKind_eq_dec : EqDecision ContractKind.
Proof. solve_decision. Defined.

(** A contract handle: the object [XContract.at(address, web3, options)]
    resolves to.  [ref] is the identity of the object; two handles are the
    same object exactly when their references agree. *)
Record Handle : Type := MkHandle {
  ref : nat;
  kind : ContractKind;
  address : Address;
  defaults : Tx;
}.

(** Methods of the bindings that the modelled sources invoke, with their
    arguments. *)
Inductive Method : Type :=
  | BalanceOf (owner : Address)
  | Name
  | Symbol
  | TotalSupply
  | Decimals
  | Allowance (owner spender : Address)
  | Transfer (to : Address) (value : N)
  | TransferFrom (sender to : Address) (value : N)
  | Approve (spender : Address) (value : N)
  | BatchFetchBalancesOf (tokenAddresses : list Address) (owner : Address)
  | BatchFetchSupplies (tokenAddresses : list Address)
  | FetchRebalanceProposalStateAsync (rebalancingSetTokenAddress : Address)
  | FetchRebalanceAuctionStateAsync (rebalancingSetTokenAddress : Address).

(** What a remote call decodes to (types are erased at run time). *)
Inductive Reply : Type :=
  | Num (n : N)
  | Str (s : string)
  | Nums (items : list N)
  | Tuple (numbers : list N) (addresses : list Address).

(** A settled promise. *)
Inductive outcome (A : Type) : Type :=
  | Resolved (value : A)
  | Rejected (message : string).
Arguments Resolved {A} value.
Arguments Rejected {A} message.

(** Sequencing of checks that settle without touching the process. *)
Definition and_then {A B} (o : outcome A) (k : A → outcome B) : outcome B :=
  match o with
  | Resolved a => k a
  | Rejected message => Rejected message
  end.

(** What went over the wire, oldest first.  For an [X.at], [built] is the
    reference of the handle object it constructed, if it did. *)
Inductive Interaction : Type :=
  | At (k : ContractKind) (a : Address) (built : option nat)
  | Call (h : Handle) (m : Method)
  | Send (h : Handle) (m : Method) (txOpts : Tx).

#[global] Instance Tx_eq_dec : EqDecision Tx.
Proof. solve_decision. Defined.
#[global] Instance Handle_eq_dec : EqDecision Handle.
Proof. solve_decision. Defined.
#[global] Instance Method_eq_dec : EqDecision Method.
Proof. solve_decision. Defined.
#[global] Instance Interaction_eq_dec : EqDecision Interaction.
Proof. solve_decision. Defined.

(** The node behind a [Web3] instance.  It is outside the repository, so
    it is an arbitrary function of what was asked and of what went over
    the wire before: [contract_at] tells whether the awaited [X.at] rejects
    (and with which message), [eth_call] and [eth_send] how a read and a
    transaction settle. *)
Record Web3 : Type := MkWeb3 {
  contract_at : list Interaction → ContractKind → Address → option string;
  eth_call : list Interaction → Handle → Method → outcome Reply;
  eth_send : list Interaction → Handle → Method → Tx → outcome string;
}.

(** The part of the JavaScript process the sources touch: the object
    references handed out so far, the [cache] object of every
    [ProtocolContractWrapper] instance, and the wire log. *)
Record Process : Type := MkProcess {
  allocated : nat;
  caches : gmap nat (gmap string Handle);
  wire : list Interaction;
}.

Definition boot : Process := MkProcess 0 ∅ [].

(** An [async] function: run from a process state, it settles and leaves
    a process state behind (also when it rejects). *)
Definition Async (A : Type) : Type := Process → outcome A * Process.

Definition resolve {A} (a : A) : Async A := λ p, (Resolved a, p).

Definition reject {A} (message : string) : Async A :=
  λ p, (Rejected message, p).

Definition bind {A B} (m : Async A) (k : A → Async B) : Async B :=
  λ p, match m p with
       | (Resolved a, p') => k a p'
       | (Rejected message, p') => (Rejected message, p')
       end.

Notation "'await' x ':=' m 'in' k" := (bind m (λ x, k))
  (at level 10, x name, m at level 100, k at level 200,
   format "'[v' 'await'  x  ':='  m  'in' '/' k ']'").

(** [contract.method.callAsync(...)]. *)
Definition callAsync (web3 : Web3) (h : Handle) (m : Method) : Async Reply :=
  λ p, (eth_call web3 (wire p) h m,
        MkProcess (allocated p) (caches p) (wire p ++ [Call h m])).

(** [contract.method.sendTransactionAsync(..., txOpts)]. *)
Definition sendTransactionAsync (web3 : Web3) (h : Handle) (m : Method)
    (txOpts : Tx) : Async string :=
  λ p, (eth_send web3 (wire p) h m txOpts,
        MkProcess (allocated p) (caches p) (wire p ++ [Send h m txOpts])).

(** [XContract.at(address, web3, options)]: asks the node, and on success
    allocates a fresh handle object. *)
Definition at_ (k : ContractKind) (a : Address) (web3 : Web3)
    (options : Tx) : Async Handle :=
  λ p, match contract_at web3 (wire p) k a with
       | Some message =>
           (Rejected message,
            MkProcess (allocated p) (caches p) (wire p ++ [At k a None]))
       | None =>
           (Resolved (MkHandle (allocated p) k a options),
            MkProcess (S (allocated p)) (caches p)
                      (wire p ++ [At k a (Some (allocated p))]))
       end.

(* ================================================================== *)
(** * ProtocolContractWrapper: the resolver and its cache *)
(* ================================================================== *)

Module ProtocolContractWrapper.

(** What reading a property of the [cache] object can give: a stored
    handle, a member inherited from [Object.prototype], or
    [undefined]. *)
Inductive JsValue : Type :=
  | Contract (h : Handle)
  | Inherited (property : string)
  | Undefined.

(** The property names every object literal inherits. *)
Definition Object_prototype : list string :=
  [ "constructor"; "__defineGetter__"; "__defineSetter__";
    "hasOwnProperty"; "__lookupGetter__"; "__lookupSetter__";
    "isPrototypeOf"; "propertyIsEnumerable"; "toString"; "valueOf";
    "__proto__"; "toLocaleString" ].

(** [key in o] for an object literal [o]. *)
Definition js_in (key : string) (o : gmap string Handle) : bool :=
  bool_decide (is_Some (o !! key)) || bool_decide (key ∈ Object_prototype).

(** [o[key]]. *)
Definition js_get (key : string) (o : gmap string Handle) : JsValue :=
  match o !! key with
  | Some h => Contract h
  | None =>
      if bool_decide (key ∈ Object_prototype) then Inherited key
      else Undefined
  end.

(** An instance: its [web3] and a reference to its private [cache]
    object. *)
Record t : Type := MkWrapper {
  web3 : Web3;
  cache : nat;
}.

(** [new ProtocolContractWrapper(web3)]: [this.cache = {}]. *)
Definition new (web3 : Web3) : Async t :=
  λ p, (Resolved (MkWrapper web3 (allocated p)),
        MkProcess (S (allocated p)) (<[allocated p := ∅]> (caches p))
                  (wire p)).

(** The current contents of the [cache] object of [this]. *)
Definition cache_of (this : t) (p : Process) : gmap string Handle :=
  default ∅ (caches p !! cache this).

Definition read_cache (this : t) : Async (gmap string Handle) :=
  λ p, (Resolved (cache_of this p), p).

(** [this.cache[cacheKey] = contract]. *)
Definition write_cache (this : t) (cacheKey : string) (contract : Handle)
    : Async unit :=
  λ p, (Resolved tt,
        MkProcess (allocated p)
          (<[cache this := <[cacheKey := contract]> (cache_of this p)]>
             (caches p))
          (wire p)).

(** The body shared by the sixteen loaders; they differ in the literal
    that starts the cache key and in the binding whose [at] they
    await. *)
Definition loadAsync (prefix : string) (k : ContractKind) (this : t)
    (contractAddress : Address) (transactionOptions : Tx) : Async JsValue :=
  let cacheKey := prefix +:+ "_" +:+ contractAddress in
  await c := read_cache this in
  if js_in cacheKey c then
    resolve (js_get cacheKey c)
  else
    await contract := at_ k contractAddress (web3 this) transactionOptions in
    await _ := write_cache this cacheKey contract in
    resolve (Contract contract).

(** A loader up to its [await]: on a hit it has its value; on a miss it
    is suspended on [X.at], and other code of the process may run before
    it resumes. *)
Inductive Suspension : Type :=
  | Settled (v : JsValue)
  | AwaitingAt (cacheKey : string) (k : ContractKind)
      (contractAddress : Address) (transactionOptions : Tx).

Definition load_begin (prefix : string) (k : ContractKind) (this : t)
    (contractAddress : Address) (transactionOptions : Tx) (p : Process)
    : Suspension :=
  let cacheKey := prefix +:+ "_" +:+ contractAddress in
  if js_in cacheKey (cache_of this p) then
    Settled (js_get cacheKey (cache_of this p))
  else AwaitingAt cacheKey k contractAddress transactionOptions.

Definition load_resume (this : t) (s : Suspension) : Async JsValue :=
  match s with
  | Settled v => resolve v
  | AwaitingAt cacheKey k contractAddress transactionOptions =>
      await contract := at_ k contractAddress (web3 this) transactionOptions in
      await _ := write_cache this cacheKey contract in
      resolve (Contract contract)
  end.

Definition loadCoreAsync := loadAsync "Core" CoreContract.
Definition loadSetTokenAsync := loadAsync "SetToken" SetTokenContract.
Definition loadRebalancingSetTokenAsync :=
  loadAsync "RebalancingSetToken" RebalancingSetTokenContract.
Definition loadERC20TokenAsync := loadAsync "ERC20Token" ERC20DetailedContract.
Definition loadVaultAsync := loadAsync "Vault" VaultContract.
(** The key of the transfer proxy starts with [Vault_] as well. *)
Definition loadTransferProxyAsync := loadAsync "Vault" TransferProxyContract.
Definition loadRebalanceAuctionModuleAsync :=
  loadAsync "RebalanceAuctionModule" RebalanceAuctionModuleContract.
Definition loadKyberNetworkWrapperAsync :=
  loadAsync "KyberNetworkWrapper" KyberNetworkWrapperContract.
Definition loadRebalancingSetExchangeIssuanceModuleAsync :=
  loadAsync "RebalancingSetExchangeIssuanceModule"
            RebalancingSetExchangeIssuanceModuleContract.
Definition loadRebalancingSetIssuanceModuleAsync :=
  loadAsync "RebalancingSetIssuanceModule"
            RebalancingSetIssuanceModuleContract.
Definition loadAuthorizableAsync := loadAsync "Authorizable" AuthorizableContract.
Definition loadTimeLockUpgradeAsync :=
  loadAsync "TimeLockUpgrade" TimeLockUpgradeContract.
Definition loadWhitelistAsync := loadAsync "WhiteList" WhiteListContract.
Definition loadExchangeIssuanceModuleAsync :=
  loadAsync "ExchangeIssuanceModule" ExchangeIssuanceModuleContract.
Definition loadMedianizerContract := loadAsync "Medianizer" MedianContract.
Definition loadProtocolViewerContract :=
  loadAsync "ProtocolViewer" ProtocolViewerContract.

(** The loader of each kind: "resolve (kind, address, options)". *)
Definition load (k : ContractKind) : t → Address → Tx → Async JsValue :=
  match k with
  | AuthorizableContract => loadAuthorizableAsync
  | CoreContract => loadCoreAsync
  | ERC20DetailedContract => loadERC20TokenAsync
  | ExchangeIssuanceModuleContract => loadExchangeIssuanceModuleAsync
  | KyberNetworkWrapperContract => loadKyberNetworkWrapperAsync
  | ProtocolViewerContract => loadProtocolViewerContract
  | RebalancingSetIssuanceModuleContract =>
      loadRebalancingSetIssuanceModuleAsync
  | RebalancingSetExchangeIssuanceModuleContract =>
      loadRebalancingSetExchangeIssuanceModuleAsync
  | RebalanceAuctionModuleContract => loadRebalanceAuctionModuleAsync
  | RebalancingSetTokenContract => loadRebalancingSetTokenAsync
  | MedianContract => loadMedianizerContract
  | SetTokenContract => loadSetTokenAsync
  | TimeLockUpgradeContract => loadTimeLockUpgradeAsync
  | TransferProxyContract => loadTransferProxyAsync
  | WhiteListContract => loadWhitelistAsync
  | VaultContract => loadVaultAsync
  end.

(** The literal that starts the cache key of the loader of kind [k], and
    the key that loader computes for an address. *)
Definition cachePrefix (k : ContractKind) : string :=
  match k with
  | AuthorizableContract => "Authorizable"
  | CoreContract => "Core"
  | ERC20DetailedContract => "ERC20Token"
  | ExchangeIssuanceModuleContract => "ExchangeIssuanceModule"
  | KyberNetworkWrapperContract => "KyberNetworkWrapper"
  | ProtocolViewerContract => "ProtocolViewer"
  | RebalancingSetIssuanceModuleContract => "RebalancingSetIssuanceModule"
  | RebalancingSetExchangeIssuanceModuleContract =>
      "RebalancingSetExchangeIssuanceModule"
  | RebalanceAuctionModuleContract => "RebalanceAuctionModule"
  | RebalancingSetTokenContract => "RebalancingSetToken"
  | MedianContract => "Medianizer"
  | SetTokenContract => "SetToken"
  | TimeLockUpgradeContract => "TimeLockUpgrade"
  | TransferProxyContract => "Vault"
  | WhiteListContract => "WhiteList"
  | VaultContract => "Vault"
  end.

Definition cacheKey (k : ContractKind) (a : Address) : string :=
  cachePrefix k +:+ "_" +:+ a.

(** A program of successive (awaited one after the other) loads on one
    wrapper, and the settlements it observes. *)
Record Request : Type := MkRequest {
  req_kind : ContractKind;
  req_address : Address;
  req_options : Tx;
}.

Fixpoint run (this : t) (requests : list Request) (p : Process)
    : list (outcome JsValue) * Process :=
  match requests with
  | [] => ([], p)
  | r :: rest =>
      let '(o, p') := load (req_kind r) this (req_address r) (req_options r) p in
      let '(os, p'') := run this rest p' in
      (o :: os, p'')
  end.

(** The handles of kind [k] for address [a] that were constructed,
    by reference, oldest first. *)
Fixpoint constructions (k : ContractKind) (a : Address)
    (log : list Interaction) : list nat :=
  match log with
  | [] => []
  | At k' a' (Some r) :: log' =>
      if bool_decide (k' = k ∧ a' = a) then r :: constructions k a log'
      else constructions k a log'
  | _ :: log' => constructions k a log'
  end.

(** The handles in the cache of [this] are objects of the process, and
    no object is stored under two keys. *)
Definition well_formed (this : t) (p : Process) : Prop :=
  (∀ key h, cache_of this p !! key = Some h → ref h < allocated p) ∧
  (∀ key1 key2 h1 h2,
     cache_of this p !! key1 = Some h1 →
     cache_of this p !! key2 = Some h2 →
     ref h1 = ref h2 → key1 = key2).

(** Of the constructions in [log], each (kind, address) has at most one,
    and what was constructed is in the cache of [this]. *)
Definition constructed_once (this : t) (p : Process)
    (log : list Interaction) : Prop :=
  ∀ k a,
    length (constructions k a log) ≤ 1 ∧
    (constructions k a log ≠ [] →
     is_Some (cache_of this p !! cacheKey k a)).

(** The two kinds whose loaders share the key prefix [Vault]. *)
Definition shares_vault_prefix (k : ContractKind) : bool :=
  match k with
  | VaultContract | TransferProxyContract => true
  | _ => false
  end.

End ProtocolContractWrapper.

(* ================================================================== *)
(** * Invoking a method on what a loader resolved to *)
(* ================================================================== *)

Import ProtocolContractWrapper.

(** [instance.method.callAsync(...)].  Only a handle has the method; on
    anything else the property read throws. *)
Definition callOn (web3 : Web3) (instance : JsValue) (m : Method)
    : Async Reply :=
  match instance with
  | Contract h => callAsync web3 h m
  | _ => reject "TypeError: Cannot read property 'callAsync' of undefined"
  end.

(** [instance.method.sendTransactionAsync(..., txOpts)]; the transaction
    hash is a string. *)
Definition sendOn (web3 : Web3) (instance : JsValue) (m : Method)
    (txOpts : Tx) : Async Reply :=
  match instance with
  | Contract h =>
      await txHash := sendTransactionAsync web3 h m txOpts in
      resolve (Str txHash)
  | _ =>
      reject "TypeError: Cannot read property 'sendTransactionAsync' of undefined"
  end.

(** [array.forEach(f)] for a callback that may throw. *)
Fixpoint forEach {A : Type} (items : list A) (f : A → Async unit)
    : Async unit :=
  match items with
  | [] => resolve tt
  | x :: rest => await _ := f x in forEach rest f
  end.

(* ================================================================== *)
(** * SchemaAssertions *)
(* ================================================================== *)

Module SchemaAssertions.
Import Text.

Definition is_hex_digit (c : ascii) : bool :=
  let n := nat_of_ascii c in
  ((48 <=? n) && (n <=? 57)) ||      (* 0-9 *)
  ((97 <=? n) && (n <=? 102)) ||     (* a-f *)
  ((65 <=? n) && (n <=? 70)).        (* A-F *)

Fixpoint all_hex (s : string) : bool :=
  match s with
  | EmptyString => true
  | String c s' => is_hex_digit c && all_hex s'
  end.

(** The address pattern [^0x[0-9a-fA-F]{40}$] quoted by the test of
    [getRebalanceStateAsync]. *)
Definition matches_address_pattern (value : string) : bool :=
  match value with
  | String "0" (String "x" digits) =>
      (String.length digits =? 40) && all_hex digits
  | _ => false
  end.

Definition indent : string := "        ".

(** The message the test of [getRebalanceStateAsync] expects for an
    invalid address, line for line. *)
Definition validation_error (variableName : string) (value : string)
    : string :=
  nl +:+ indent +:+ "Expected " +:+ variableName
     +:+ " to conform to schema /Address." +:+ nl +:+
  nl +:+ indent +:+ "Encountered: " +:+ dq +:+ value +:+ dq +:+ nl +:+
  nl +:+ indent +:+ "Validation errors: instance does not match pattern "
     +:+ dq +:+ "^0x[0-9a-fA-F]{40}$" +:+ dq +:+ nl +:+ "      ".

(** Modelled from the spec: the check behind [assert.schema.isValidAddress]
    of [src/assertions], which the facade calls but which is not among
    the sources.  "All address-typed fields must match the fixed-length
    hexadecimal chain-address pattern; failing this pattern produces a
    local validation error", "naming the argument and the offending
    value". *)
Definition conformsToAddress (variableName : string) (value : Address)
    : outcome unit :=
  if matches_address_pattern value then Resolved tt
  else Rejected (validation_error variableName value).

(** [this.assert.schema.isValidAddress(variableName, value)]: it throws
    before anything is awaited and touches nothing. *)
Definition isValidAddress (variableName : string) (value : Address)
    : Async unit :=
  λ p, (conformsToAddress variableName value, p).

End SchemaAssertions.

(* ================================================================== *)
(** * ERC20Wrapper *)
(* ================================================================== *)

Module ERC20Wrapper.

Record t : Type := MkERC20Wrapper {
  web3 : Web3;
  contracts : ProtocolContractWrapper.t;
}.

Definition new (web3 : Web3) : Async t :=
  await contracts := ProtocolContractWrapper.new web3 in
  resolve (MkERC20Wrapper web3 contracts).

(** Modelled from the spec: the read methods of
    [src/wrappers/set_protocol/ERC20Wrapper], which [ERC20API] calls but
    which is not among the sources.  Each one "resolves the needed
    contract handle" through the resolver and "issues a read-only
    call". *)
Definition read (this : t) (tokenAddress : Address) (m : Method)
    : Async Reply :=
  await tokenInstance :=
    loadERC20TokenAsync (contracts this) tokenAddress no_options in
  callOn (web3 this) tokenInstance m.

(** Modelled from the spec: the state-changing methods of the same
    wrapper, which return "the transaction identifier without waiting for
    confirmation". *)
Definition write (this : t) (tokenAddress : Address) (m : Method)
    (txOpts : Tx) : Async Reply :=
  await tokenInstance :=
    loadERC20TokenAsync (contracts this) tokenAddress no_options in
  sendOn (web3 this) tokenInstance m txOpts.

Definition balanceOf (this : t) (tokenAddress userAddress : Address) :=
  read this tokenAddress (BalanceOf userAddress).
Definition name (this : t) (tokenAddress : Address) :=
  read this tokenAddress Name.
Definition symbol (this : t) (tokenAddress : Address) :=
  read this tokenAddress Symbol.
Definition totalSupply (this : t) (tokenAddress : Address) :=
  read this tokenAddress TotalSupply.
Definition decimals (this : t) (tokenAddress : Address) :=
  read this tokenAddress Decimals.
Definition allowance (this : t)
    (tokenAddress ownerAddress spenderAddress : Address) :=
  read this tokenAddress (Allowance ownerAddress spenderAddress).
Definition transfer (this : t) (tokenAddress to : Address) (value : N)
    (txOpts : Tx) :=
  write this tokenAddress (Transfer to value) txOpts.
Definition transferFrom (this : t) (tokenAddress sender to : Address)
    (value : N) (txOpts : Tx) :=
  write this tokenAddress (TransferFrom sender to value) txOpts.
Definition approve (this : t) (tokenAddress spenderAddress : Address)
    (value : N) (txOpts : Tx) :=
  write this tokenAddress (Approve spenderAddress value) txOpts.

End ERC20Wrapper.

(* ================================================================== *)
(** * ProtocolViewerWrapper *)
(* ================================================================== *)

Module ProtocolViewerWrapper.

Record t : Type := MkProtocolViewerWrapper {
  web3 : Web3;
  contracts : ProtocolContractWrapper.t;
  protocolViewerAddress : Address;
}.

(** The constructor makes a resolver of its own. *)
Definition new (web3 : Web3) (protocolViewerAddress : Address) : Async t :=
  await contracts := ProtocolContractWrapper.new web3 in
  resolve (MkProtocolViewerWrapper web3 contracts protocolViewerAddress).

Definition batchFetchBalancesOf (this : t) (tokenAddresses : list Address)
    (owner : Address) : Async Reply :=
  await protocolViewerInstance :=
    loadProtocolViewerContract (contracts this)
      (protocolViewerAddress this) no_options in
  callOn (web3 this) protocolViewerInstance
    (BatchFetchBalancesOf tokenAddresses owner).

Definition batchFetchSupplies (this : t) (tokenAddresses : list Address)
    : Async Reply :=
  await protocolViewerInstance :=
    loadProtocolViewerContract (contracts this)
      (protocolViewerAddress this) no_options in
  callOn (web3 this) protocolViewerInstance
    (BatchFetchSupplies tokenAddresses).

Definition fetchRebalanceProposalStateAsync (this : t)
    (rebalancingSetTokenAddress : Address) : Async Reply :=
  await protocolViewerInstance :=
    loadProtocolViewerContract (contracts this)
      (protocolViewerAddress this) no_options in
  callOn (web3 this) protocolViewerInstance
    (FetchRebalanceProposalStateAsync rebalancingSetTokenAddress).

Definition fetchRebalanceAuctionStateAsync (this : t)
    (rebalancingSetTokenAddress : Address) : Async Reply :=
  await protocolViewerInstance :=
    loadProtocolViewerContract (contracts this)
      (protocolViewerAddress this) no_options in
  callOn (web3 this) protocolViewerInstance
    (FetchRebalanceAuctionStateAsync rebalancingSetTokenAddress).

End ProtocolViewerWrapper.

(* ================================================================== *)
(** * ERC20API: the facade *)
(* ================================================================== *)

Module ERC20API.
Import SchemaAssertions.

(** The one field of [SetProtocolConfig] the constructor reads. *)
Record SetProtocolConfig : Type := MkConfig {
  protocolViewerAddress : Address;
}.

Record t : Type := MkERC20API {
  erc20Wrapper : ERC20Wrapper.t;
  protocolViewerWrapper : ProtocolViewerWrapper.t;
}.

Definition new (web3 : Web3) (config : SetProtocolConfig) : Async t :=
  await erc20Wrapper := ERC20Wrapper.new web3 in
  await protocolViewerWrapper :=
    ProtocolViewerWrapper.new web3 (protocolViewerAddress config) in
  resolve (MkERC20API erc20Wrapper protocolViewerWrapper).

(** ** Private assertions *)

Definition assertGetBalanceOf (tokenAddress userAddress : Address)
    : Async unit :=
  await _ := isValidAddress "tokenAddress" tokenAddress in
  isValidAddress "userAddress" userAddress.

Definition assertGetBalancesOf (tokenAddresses : list Address)
    (userAddress : Address) : Async unit :=
  await _ := isValidAddress "userAddress" userAddress in
  forEach tokenAddresses (λ tokenAddress,
    isValidAddress "tokenAddress" tokenAddress).

Definition assertGetAllowance
    (tokenAddress ownerAddress spenderAddress : Address) : Async unit :=
  await _ := isValidAddress "tokenAddress" tokenAddress in
  await _ := isValidAddress "ownerAddress" ownerAddress in
  isValidAddress "spenderAddress" spenderAddress.

Definition assertTransfer (tokenAddress to : Address) : Async unit :=
  await _ := isValidAddress "tokenAddress" tokenAddress in
  isValidAddress "to" to.

Definition assertTransferFrom (tokenAddress sender to : Address)
    : Async unit :=
  await _ := isValidAddress "tokenAddress" tokenAddress in
  await _ := isValidAddress "from" sender in
  isValidAddress "to" to.

Definition assertApprove (tokenAddress spenderAddress : Address)
    : Async unit :=
  await _ := isValidAddress "tokenAddress" tokenAddress in
  isValidAddress "spenderAddress" spenderAddress.

Definition assertGetTotalSuppliesAsync (tokenAddresses : list Address)
    : Async unit :=
  forEach tokenAddresses (λ tokenAddress,
    isValidAddress "tokenAddress" tokenAddress).

(** ** Public methods *)

Definition getBalanceOfAsync (this : t) (tokenAddress userAddress : Address)
    : Async Reply :=
  await _ := assertGetBalanceOf tokenAddress userAddress in
  ERC20Wrapper.balanceOf (erc20Wrapper this) tokenAddress userAddress.

Definition getBalancesOfAsync (this : t) (tokenAddresses : list Address)
    (userAddress : Address) : Async Reply :=
  await _ := assertGetBalancesOf tokenAddresses userAddress in
  ProtocolViewerWrapper.batchFetchBalancesOf (protocolViewerWrapper this)
    tokenAddresses userAddress.

Definition getNameAsync (this : t) (tokenAddress : Address) : Async Reply :=
  await _ := isValidAddress "tokenAddress" tokenAddress in
  ERC20Wrapper.name (erc20Wrapper this) tokenAddress.

Definition getSymbolAsync (this : t) (tokenAddress : Address) : Async Reply :=
  await _ := isValidAddress "tokenAddress" tokenAddress in
  ERC20Wrapper.symbol (erc20Wrapper this) tokenAddress.

Definition getTotalSupplyAsync (this : t) (tokenAddress : Address)
    : Async Reply :=
  await _ := isValidAddress "tokenAddress" tokenAddress in
  ERC20Wrapper.totalSupply (erc20Wrapper this) tokenAddress.

Definition getTotalSuppliesAsync (this : t) (tokenAddresses : list Address)
    : Async Reply :=
  await _ := assertGetTotalSuppliesAsync tokenAddresses in
  ProtocolViewerWrapper.batchFetchSupplies (protocolViewerWrapper this)
    tokenAddresses.

Definition getDecimalsAsync (this : t) (tokenAddress : Address)
    : Async Reply :=
  await _ := isValidAddress "tokenAddress" tokenAddress in
  ERC20Wrapper.decimals (erc20Wrapper this) tokenAddress.

Definition getAllowanceAsync (this : t)
    (tokenAddress ownerAddress spenderAddress : Address) : Async Reply :=
  await _ := assertGetAllowance tokenAddress ownerAddress spenderAddress in
  ERC20Wrapper.allowance (erc20Wrapper this)
    tokenAddress ownerAddress spenderAddress.

Definition transferAsync (this : t) (tokenAddress to : Address) (value : N)
    (txOpts : Tx) : Async Reply :=
  await _ := assertTransfer tokenAddress to in
  ERC20Wrapper.transfer (erc20Wrapper this) tokenAddress to value txOpts.

Definition transferFromAsync (this : t) (tokenAddress sender to : Address)
    (value : N) (txOpts : Tx) : Async Reply :=
  await _ := assertTransferFrom tokenAddress sender to in
  ERC20Wrapper.transferFrom (erc20Wrapper this)
    tokenAddress sender to value txOpts.

Definition approveAsync (this : t) (tokenAddress spenderAddress : Address)
    (value : N) (txOpts : Tx) : Async Reply :=
  await _ := assertApprove tokenAddress spenderAddress in
  ERC20Wrapper.approve (erc20Wrapper this)
    tokenAddress spenderAddress value txOpts.

(** ** The method surface as data *)

(** One invocation of a public method, with its arguments. *)
Inductive Invocation : Type :=
  | GetBalanceOf (tokenAddress userAddress : Address)
  | GetBalancesOf (tokenAddresses : list Address) (userAddress : Address)
  | GetName (tokenAddress : Address)
  | GetSymbol (tokenAddress : Address)
  | GetTotalSupply (tokenAddress : Address)
  | GetTotalSupplies (tokenAddresses : list Address)
  | GetDecimals (tokenAddress : Address)
  | GetAllowance (tokenAddress ownerAddress spenderAddress : Address)
  | TransferOf (tokenAddress to : Address) (value : N) (txOpts : Tx)
  | TransferFromOf (tokenAddress sender to : Address) (value : N)
      (txOpts : Tx)
  | ApproveOf (tokenAddress spenderAddress : Address) (value : N)
      (txOpts : Tx).

Definition invoke (this : t) (i : Invocation) : Async Reply :=
  match i with
  | GetBalanceOf tokenAddress userAddress =>
      getBalanceOfAsync this tokenAddress userAddress
  | GetBalancesOf tokenAddresses userAddress =>
      getBalancesOfAsync this tokenAddresses userAddress
  | GetName tokenAddress => getNameAsync this tokenAddress
  | GetSymbol tokenAddress => getSymbolAsync this tokenAddress
  | GetTotalSupply tokenAddress => getTotalSupplyAsync this tokenAddress
  | GetTotalSupplies tokenAddresses =>
      getTotalSuppliesAsync this tokenAddresses
  | GetDecimals tokenAddress => getDecimalsAsync this tokenAddress
  | GetAllowance tokenAddress ownerAddress spenderAddress =>
      getAllowanceAsync this tokenAddress ownerAddress spenderAddress
  | TransferOf tokenAddress to value txOpts =>
      transferAsync this tokenAddress to value txOpts
  | TransferFromOf tokenAddress sender to value txOpts =>
      transferFromAsync this tokenAddress sender to value txOpts
  | ApproveOf tokenAddress spenderAddress value txOpts =>
      approveAsync this tokenAddress spenderAddress value txOpts
  end.

(** The address-typed arguments of an invocation in the order of the
    method's signature, each under the name its assertion reports (the
    elements of [tokenAddresses] are reported as [tokenAddress]). *)
Definition address_arguments (i : Invocation) : list (string * Address) :=
  match i with
  | GetBalanceOf tokenAddress userAddress =>
      [("tokenAddress", tokenAddress); ("userAddress", userAddress)]
  | GetBalancesOf tokenAddresses userAddress =>
      map (λ a, ("tokenAddress", a)) tokenAddresses
        ++ [("userAddress", userAddress)]
  | GetName tokenAddress | GetSymbol tokenAddress
  | GetTotalSupply tokenAddress | GetDecimals tokenAddress =>
      [("tokenAddress", tokenAddress)]
  | GetTotalSupplies tokenAddresses =>
      map (λ a, ("tokenAddress", a)) tokenAddresses
  | GetAllowance tokenAddress ownerAddress spenderAddress =>
      [("tokenAddress", tokenAddress); ("ownerAddress", ownerAddress);
       ("spenderAddress", spenderAddress)]
  | TransferOf tokenAddress to _ _ =>
      [("tokenAddress", tokenAddress); ("to", to)]
  | TransferFromOf tokenAddress sender to _ _ =>
      [("tokenAddress", tokenAddress); ("from", sender); ("to", to)]
  | ApproveOf tokenAddress spenderAddress _ _ =>
      [("tokenAddress", tokenAddress); ("spenderAddress", spenderAddress)]
  end.

(** The checks the assertion of a method makes, in the order it makes
    them: [assertGetBalancesOf] looks at [userAddress] first. *)
Definition checks (i : Invocation) : list (string * Address) :=
  match i with
  | GetBalancesOf tokenAddresses userAddress =>
      ("userAddress", userAddress)
        :: map (λ a, ("tokenAddress", a)) tokenAddresses
  | _ => address_arguments i
  end.

(** The first check of a list that fails, if one does. *)
Definition first_failure (l : list (string * Address))
    : option (string * Address) :=
  List.find (λ arg, negb (matches_address_pattern arg.2)) l.

(** The wrapper call a method ends with. *)
Definition forward (this : t) (i : Invocation) : Async Reply :=
  match i with
  | GetBalanceOf tokenAddress userAddress =>
      ERC20Wrapper.balanceOf (erc20Wrapper this) tokenAddress userAddress
  | GetBalancesOf tokenAddresses userAddress =>
      ProtocolViewerWrapper.batchFetchBalancesOf (protocolViewerWrapper this)
        tokenAddresses userAddress
  | GetName tokenAddress => ERC20Wrapper.name (erc20Wrapper this) tokenAddress
  | GetSymbol tokenAddress =>
      ERC20Wrapper.symbol (erc20Wrapper this) tokenAddress
  | GetTotalSupply tokenAddress =>
      ERC20Wrapper.totalSupply (erc20Wrapper this) tokenAddress
  | GetTotalSupplies tokenAddresses =>
      ProtocolViewerWrapper.batchFetchSupplies (protocolViewerWrapper this)
        tokenAddresses
  | GetDecimals tokenAddress =>
      ERC20Wrapper.decimals (erc20Wrapper this) tokenAddress
  | GetAllowance tokenAddress ownerAddress spenderAddress =>
      ERC20Wrapper.allowance (erc20Wrapper this)
        tokenAddress ownerAddress spenderAddress
  | TransferOf tokenAddress to value txOpts =>
      ERC20Wrapper.transfer (erc20Wrapper this) tokenAddress to value txOpts
  | TransferFromOf tokenAddress sender to value txOpts =>
      ERC20Wrapper.transferFrom (erc20Wrapper this)
        tokenAddress sender to value txOpts
  | ApproveOf tokenAddress spenderAddress value txOpts =>
      ERC20Wrapper.approve (erc20Wrapper this)
        tokenAddress spenderAddress value txOpts
  end.

(** The contract an invocation is sent to, the resolver that loads it,
    the remote method, and the options of a transaction. *)
Definition target (this : t) (i : Invocation) : ContractKind * Address :=
  match i with
  | GetBalancesOf _ _ | GetTotalSupplies _ =>
      (ProtocolViewerContract,
       ProtocolViewerWrapper.protocolViewerAddress (protocolViewerWrapper this))
  | GetBalanceOf a _ | GetName a | GetSymbol a | GetTotalSupply a
  | GetDecimals a | GetAllowance a _ _ | TransferOf a _ _ _
  | TransferFromOf a _ _ _ _ | ApproveOf a _ _ _ =>
      (ERC20DetailedContract, a)
  end.

Definition resolver (this : t) (i : Invocation) : ProtocolContractWrapper.t :=
  match i with
  | GetBalancesOf _ _ | GetTotalSupplies _ =>
      ProtocolViewerWrapper.contracts (protocolViewerWrapper this)
  | _ => ERC20Wrapper.contracts (erc20Wrapper this)
  end.

Definition method_of (i : Invocation) : Method :=
  match i with
  | GetBalanceOf _ userAddress => BalanceOf userAddress
  | GetBalancesOf tokenAddresses userAddress =>
      BatchFetchBalancesOf tokenAddresses userAddress
  | GetName _ => Name
  | GetSymbol _ => Symbol
  | GetTotalSupply _ => TotalSupply
  | GetTotalSupplies tokenAddresses => BatchFetchSupplies tokenAddresses
  | GetDecimals _ => Decimals
  | GetAllowance _ ownerAddress spenderAddress =>
      Allowance ownerAddress spenderAddress
  | TransferOf _ to value _ => Transfer to value
  | TransferFromOf _ sender to value _ => TransferFrom sender to value
  | ApproveOf _ spenderAddress value _ => Approve spenderAddress value
  end.

Definition options_of (i : Invocation) : option Tx :=
  match i with
  | TransferOf _ _ _ txOpts | TransferFromOf _ _ _ _ txOpts
  | ApproveOf _ _ _ txOpts => Some txOpts
  | _ => None
  end.

(** How the node settles the remote method of [i] on handle [h], asked
    after [log] went over the wire. *)
Definition node_settles (node : Web3) (log : list Interaction) (h : Handle)
    (i : Invocation) : outcome Reply :=
  match options_of i with
  | None => eth_call node log h (method_of i)
  | Some txOpts =>
      and_then (eth_send node log h (method_of i) txOpts)
               (λ txHash, Resolved (Str txHash))
  end.


(** Every part of the facade talks to the node [node], as after
    [new node config]. *)
Definition uses (node : Web3) (this : t) : Prop :=
  ERC20Wrapper.web3 (erc20Wrapper this) = node ∧
  ProtocolContractWrapper.web3 (ERC20Wrapper.contracts (erc20Wrapper this))
    = node ∧
  ProtocolViewerWrapper.web3 (protocolViewerWrapper this) = node ∧
  ProtocolContractWrapper.web3
    (ProtocolViewerWrapper.contracts (protocolViewerWrapper this)) = node.

(** All address-typed arguments match the pattern. *)
Definition well_formed_arguments (i : Invocation) : Prop :=
  Forall (λ arg, matches_address_pattern arg.2 = true) (address_arguments i).

(** A node whose viewer contract answers a batch read with one value per
    submitted address, in order. *)
Definition viewer_answers_per_address (node : Web3)
    (supply : Address → N) (balance : Address → Address → N) : Prop :=
  ∀ log h tokenAddresses,
    eth_call node log h (BatchFetchSupplies tokenAddresses)
      = Resolved (Nums (map supply tokenAddresses)) ∧
    ∀ owner,
      eth_call node log h (BatchFetchBalancesOf tokenAddresses owner)
        = Resolved (Nums (map (λ a, balance a owner) tokenAddresses)).

End ERC20API.

(* ================================================================== *)
(** * RebalancingAPI: what the sources and the spec fix of it *)
(* ================================================================== *)

Module RebalancingAPI.
Import Text SchemaAssertions.

(** The state a rebalancing set token tracks on chain. *)
Inductive RebalancingState : Type :=
  | Default
  | Proposal
  | Rebalance
  | Drawdown.

#[global] Instance RebalancingState_eq_dec : EqDecision RebalancingState.
Proof. solve_decision. Defined.

Definition stateName (s : RebalancingState) : string :=
  match s with
  | Default => "Default"
  | Proposal => "Proposal"
  | Rebalance => "Rebalance"
  | Drawdown => "Drawdown"
  end.

(** The state-gated operations: those of [RebalancingAPI] and the propose
    of [RebalancingManagerAPI]. *)
Inductive Operation : Type :=
  | proposeAsync
  | startRebalanceAsync
  | settleRebalanceAsync
  | endFailedAuctionAsync
  | bidAsync
  | redeemFromFailedRebalanceAsync
  | managerProposeAsync.

(** The messages the tests of [RebalancingAPI] expect. *)
Definition INCORRECT_STATE (rebalancingSetTokenAddress : Address)
    (required : RebalancingState) : string :=
  "Rebalancing token at " +:+ rebalancingSetTokenAddress +:+ " must be in "
    +:+ stateName required +:+ " state to call that function.".

Definition REBALANCE_IN_PROGRESS (rebalancingSetTokenAddress : Address)
    : string :=
  "Rebalancing token at " +:+ rebalancingSetTokenAddress
    +:+ " is currently in rebalancing state."
    +:+ " Issue, Redeem, and propose functionality is not available during this time".

Definition BID_AMOUNT_EXCEEDS_REMAINING_CURRENT_SETS
    (bidQuantity remainingCurrentSets : N) : string :=
  "The submitted bid quantity, " +:+ toString bidQuantity
    +:+ ", exceeds the remaining current sets, "
    +:+ toString remainingCurrentSets +:+ ".".

Definition BID_AMOUNT_NOT_MULTIPLE_OF_MINIMUM_BID
    (bidQuantity minimumBid : N) : string :=
  "The submitted bid quantity, " +:+ toString bidQuantity
    +:+ ", must be a multiple of the minimumBid, "
    +:+ toString minimumBid +:+ ".".

(** The one state an operation requires, as the messages of its tests
    name it.  [proposeAsync] has none: its test shows it refused on a
    token in Rebalance state, with a message of its own. *)
Definition requiredState (op : Operation) : option RebalancingState :=
  match op with
  | proposeAsync => None
  | startRebalanceAsync => Some Proposal
  | settleRebalanceAsync => Some Rebalance
  | endFailedAuctionAsync => Some Rebalance
  | bidAsync => Some Rebalance
  | redeemFromFailedRebalanceAsync => Some Drawdown
  | managerProposeAsync => Some Default
  end.

(** Modelled from the spec: how the operations of [src/api/RebalancingAPI]
    and the propose of [src/api/RebalancingManagerAPI], which are not among
    the sources (their tests are), settle with respect to the state of the
    token.  "Invoking a state-gated operation while the remote entity is
    in the wrong tracked state fails with an error string"; the strings
    are the ones the tests expect: [proposeAsync] on a token in Rebalance
    state fails with [REBALANCE_IN_PROGRESS], every other operation
    outside its required state with [INCORRECT_STATE]. *)
Definition stateGate (op : Operation) (rebalancingSetTokenAddress : Address)
    (current : RebalancingState) : outcome unit :=
  match requiredState op with
  | None =>
      if bool_decide (current = Rebalance)
      then Rejected (REBALANCE_IN_PROGRESS rebalancingSetTokenAddress)
      else Resolved tt
  | Some required =>
      if bool_decide (current = required) then Resolved tt
      else Rejected (INCORRECT_STATE rebalancingSetTokenAddress required)
  end.

(** The token is in a state the operation can be invoked in: the
    required state, or for [proposeAsync] any state but Rebalance. *)
Definition accepted (op : Operation) (current : RebalancingState) : bool :=
  match requiredState op with
  | None => negb (bool_decide (current = Rebalance))
  | Some required => bool_decide (current = required)
  end.

(** What the facade reads from a rebalancing set token when asked for a
    bid price: its state, its bidding parameters, its combined token array
    and the raw [getBidPrice(quantity)] tuple of inflow and outflow
    units. *)
Record RebalancingSetTokenView : Type := MkView {
  rebalanceState : RebalancingState;
  minimumBid : N;
  remainingCurrentSets : N;
  getCombinedTokenArray : list Address;
  getBidPrice : N → list N * list N;
}.

(** One entry of [TokenFlowsDetails]: [{ address, unit }]. *)
Record Component : Type := MkComponent {
  c_address : Address;
  c_unit : N;
}.

Record TokenFlowsDetails : Type := MkTokenFlows {
  inflow : list Component;
  outflow : list Component;
}.

(** Pair each raw unit with the token at the same index and keep the
    entries whose unit is not zero. *)
Definition tokenFlowComponents (tokens : list Address) (units : list N)
    : list Component :=
  filter (λ c, c_unit c ≠ 0%N) (zip_with MkComponent tokens units).

(** Modelled from the spec: [getBidPriceAsync] of [src/api/RebalancingAPI],
    which is not among the sources (its tests are).  It "validates each
    address-typed argument", fails on a token that is not in Rebalance
    state and on a bid quantity that exceeds the remaining current sets or
    is not a multiple of the minimum bid (the messages of the tests), and
    "reshapes raw tuple output into a named result object, filtering out
    zero-valued entries", "omitting zero-unit token flows". *)
Definition getBidPriceAsync (rebalancingSetTokenAddress : Address)
    (bidQuantity : N) (token : RebalancingSetTokenView)
    : outcome TokenFlowsDetails :=
  and_then (conformsToAddress "rebalancingSetTokenAddress"
              rebalancingSetTokenAddress) (λ _,
  and_then (if bool_decide (rebalanceState token = Rebalance) then Resolved tt
            else Rejected (INCORRECT_STATE rebalancingSetTokenAddress Rebalance))
    (λ _,
  and_then (if (bidQuantity <=? remainingCurrentSets token)%N then Resolved tt
            else Rejected (BID_AMOUNT_EXCEEDS_REMAINING_CURRENT_SETS
                             bidQuantity (remainingCurrentSets token))) (λ _,
  and_then (if (bidQuantity mod minimumBid token =? 0)%N then Resolved tt
            else Rejected (BID_AMOUNT_NOT_MULTIPLE_OF_MINIMUM_BID
                             bidQuantity (minimumBid token))) (λ _,
  let '(inflowUnits, outflowUnits) := getBidPrice token bidQuantity in
  let tokens := getCombinedTokenArray token in
  Resolved (MkTokenFlows (tokenFlowComponents tokens inflowUnits)
                         (tokenFlowComponents tokens outflowUnits)))))).

(** A bid quantity the facade lets through. *)
Definition validBid (bidQuantity : N) (token : RebalancingSetTokenView)
    : Prop :=
  (bidQuantity ≤ remainingCurrentSets token)%N ∧
  (bidQuantity mod minimumBid token = 0)%N.

End RebalancingAPI.

(* ================================================================== *)
(** * RebalancingManagerAPI: what the sources and the spec fix of it *)
(* ================================================================== *)

Module RebalancingManagerAPI.
Import Text RebalancingAPI.

(** The manager types whose [proposeAsync] the tests exercise. *)
Inductive ManagerType : Type :=
  | BTCETH
  | BTCDAI
  | ETHDAI.

(** The asset whose allocation the manager tracks, as the messages of
    the tests name it. *)
Definition trackedAsset (m : ManagerType) : string :=
  match m with
  | BTCETH => "BTC"
  | BTCDAI => "DAI"
  | ETHDAI => "DAI"
  end.

(** What the facade reads before proposing: the state of the rebalancing
    set, the current allocation percentage of the tracked asset and the
    two thresholds of the manager. *)
Record ManagerView : Type := MkManagerView {
  setState : RebalancingState;
  currentAllocation : N;
  maximumLowerThreshold : N;
  minimumUpperThreshold : N;
}.

Definition PRICE_TRIGGER_NOT_MET (asset : string)
    (allocation lower upper : N) : string :=
  "Current " +:+ asset +:+ " allocation " +:+ toString allocation
    +:+ "% must be outside allocation bounds " +:+ toString lower
    +:+ " and " +:+ toString upper +:+ ".".

(** The allocation lies within the thresholds.  The upper threshold
    itself counts as outside: the propose that the BTCETH test expects to
    succeed runs at a BTC share of 100 * 4082 / (4082 + 128 * 28.999),
    that is 52%, against the bounds 48 and 52. *)
Definition withinBounds (v : ManagerView) : bool :=
  (maximumLowerThreshold v <=? currentAllocation v)%N &&
  (currentAllocation v <? minimumUpperThreshold v)%N.

(** Modelled from the spec: [proposeAsync] of
    [src/api/RebalancingManagerAPI], which is not among the sources (its
    tests are).  On a rebalancing set outside Default state it fails at
    the state gate; "when the underlying trigger condition
    (a tracked allocation percentage) is within configured bounds" it
    "must fail with an error string containing the current computed
    percentage and the configured bound values".  The other checks of the
    method are left out. *)
Definition proposeAsync (managerType : ManagerType)
    (rebalancingSetToken : Address) (v : ManagerView) : outcome unit :=
  and_then (stateGate managerProposeAsync rebalancingSetToken (setState v))
    (λ _,
  if withinBounds v
  then Rejected (PRICE_TRIGGER_NOT_MET (trackedAsset managerType)
                   (currentAllocation v) (maximumLowerThreshold v)
                   (minimumUpperThreshold v))
  else Resolved tt).

End RebalancingManagerAPI.

(* ================================================================== *)
(** * Example nodes, facades and tokens *)
(* ================================================================== *)

Module Examples.
Import ERC20API RebalancingAPI.

Definition address_1 : Address := "0x0000000000000000000000000000000000000001".
Definition address_2 : Address := "0x0000000000000000000000000000000000000002".
Definition address_3 : Address := "0x0000000000000000000000000000000000000003".
Definition address_4 : Address := "0x0000000000000000000000000000000000000004".

(** A node on which every contract exists and every read gives zero. *)
Definition node_ok : Web3 :=
  MkWeb3 (λ _ _ _, None) (λ _ _ _, Resolved (Num 0))
         (λ _ _ _ _, Resolved "0xtx").

(** A node on which no contract is found: every [X.at] rejects. *)
Definition node_empty : Web3 :=
  MkWeb3 (λ _ _ _, Some "Contract not found on network")
         (λ _ _ _, Rejected "revert") (λ _ _ _ _, Rejected "revert").


(** A node whose viewer reports, per address, a supply and a balance;
    the second example address has none of either. *)
Definition example_supply (a : Address) : N :=
  if bool_decide (a = address_1) then 1000 else
  if bool_decide (a = address_3) then 7 else 0.

Definition example_balance (a owner : Address) : N :=
  if bool_decide (a = address_1) then 5 else 0.

Definition node_viewer : Web3 :=
  MkWeb3 (λ _ _ _, None)
         (λ _ _ m,
            match m with
            | BatchFetchSupplies l => Resolved (Nums (map example_supply l))
            | BatchFetchBalancesOf l owner =>
                Resolved (Nums (map (λ a, example_balance a owner) l))
            | _ => Resolved (Num 0)
            end)
         (λ _ _ _ _, Resolved "0xtx").

(** The facade [new node (MkConfig address_3)] builds in a fresh process,
    and the process it leaves. *)
Definition facade_on (node : Web3) : ERC20API.t :=
  MkERC20API
    (ERC20Wrapper.MkERC20Wrapper node (MkWrapper node 0))
    (ProtocolViewerWrapper.MkProtocolViewerWrapper node (MkWrapper node 1)
       address_3).

Definition started : Process := MkProcess 2 (<[1 := ∅]> (<[0 := ∅]> ∅)) [].

(** A token in Rebalance state with four components, two of which have
    no inflow and two no outflow, as in the test of the zero filter. *)
Definition token_in_rebalance : RebalancingSetTokenView :=
  MkView Rebalance 1 7
    [address_1; address_2; address_3; address_4]
    (λ quantity, ([0; 0; 3 * quantity; 4 * quantity],
                  [quantity; 2 * quantity; 0; 0])%N).

End Examples.

(* ================================================================== *)
(** * Programs of calls, and what they leave on the wire *)
(* ================================================================== *)

Module Programs.

(** The contract methods invoked in a stretch of the wire log, with the
    handle they were invoked on, oldest first. *)
Fixpoint calls_issued (log : list Interaction) : list (Handle * Method) :=
  match log with
  | [] => []
  | Call h m :: log' => (h, m) :: calls_issued log'
  | _ :: log' => calls_issued log'
  end.

(** One call of a public method of [ProtocolViewerWrapper], with its
    arguments. *)
Inductive ViewerCall : Type :=
  | CallBatchFetchBalancesOf (tokenAddresses : list Address) (owner : Address)
  | CallBatchFetchSupplies (tokenAddresses : list Address)
  | CallFetchRebalanceProposalState (rebalancingSetTokenAddress : Address)
  | CallFetchRebalanceAuctionState (rebalancingSetTokenAddress : Address).

Definition perform (this : ProtocolViewerWrapper.t) (c : ViewerCall)
    : Async Reply :=
  match c with
  | CallBatchFetchBalancesOf tokenAddresses owner =>
      ProtocolViewerWrapper.batchFetchBalancesOf this tokenAddresses owner
  | CallBatchFetchSupplies tokenAddresses =>
      ProtocolViewerWrapper.batchFetchSupplies this tokenAddresses
  | CallFetchRebalanceProposalState a =>
      ProtocolViewerWrapper.fetchRebalanceProposalStateAsync this a
  | CallFetchRebalanceAuctionState a =>
      ProtocolViewerWrapper.fetchRebalanceAuctionStateAsync this a
  end.

(** The contract method a viewer call invokes, with the arguments it
    passes. *)
Definition viewer_method (c : ViewerCall) : Method :=
  match c with
  | CallBatchFetchBalancesOf tokenAddresses owner =>
      BatchFetchBalancesOf tokenAddresses owner
  | CallBatchFetchSupplies tokenAddresses => BatchFetchSupplies tokenAddresses
  | CallFetchRebalanceProposalState a => FetchRebalanceProposalStateAsync a
  | CallFetchRebalanceAuctionState a => FetchRebalanceAuctionStateAsync a
  end.

(** Viewer calls awaited one after the other; a call that rejects does
    not stop the ones after it (each is awaited by its own caller). *)
Fixpoint perform_all (this : ProtocolViewerWrapper.t)
    (calls : list ViewerCall) (p : Process)
    : list (outcome Reply) * Process :=
  match calls with
  | [] => ([], p)
  | c :: rest =>
      let '(o, p') := perform this c p in
      let '(os, p'') := perform_all this rest p' in
      (o :: os, p'')
  end.

(** An entry of the wire log that concerns the viewer contract at
    [viewerAddress] and nothing else. *)
Definition about_viewer (viewerAddress : Address) (i : Interaction) : Prop :=
  match i with
  | At k a _ => k = ProtocolViewerContract ∧ a = viewerAddress
  | Call h _ => kind h = ProtocolViewerContract ∧ address h = viewerAddress
  | Send _ _ _ => False
  end.

(** The calls a step from [p] to [q] has put on the wire. *)
Definition issued (p q : Process) : list (Handle * Method) :=
  calls_issued (drop (length (wire p)) (wire q)).

(** What holds of the wire log [log] a viewer wrapper has produced since
    its construction, in process state [p]. *)
Definition viewer_log_ok (this : ProtocolViewerWrapper.t) (p : Process)
    (log : list Interaction) : Prop :=
  let resolver := ProtocolViewerWrapper.contracts this in
  let viewer := ProtocolViewerWrapper.protocolViewerAddress this in
  Forall (about_viewer viewer) log ∧
  match cache_of resolver p !! cacheKey ProtocolViewerContract viewer with
  | None =>
      constructions ProtocolViewerContract viewer log = [] ∧
      calls_issued log = []
  | Some h =>
      kind h = ProtocolViewerContract ∧ address h = viewer ∧
      length (constructions ProtocolViewerContract viewer log) ≤ 1 ∧
      Forall (λ x, x.1 = h) (calls_issued log)
  end.

End Programs.

(* ================================================================== *)
(** * The propose operations: the time check *)
(* ================================================================== *)

Module Proposing.
Import Text.

(** The local environment of the facade: its clock ([Date.now()], in
    milliseconds, which the tests freeze with [timekeeper]) and the
    formatting of an instant as a date
    ([moment(ms).format('dddd, MMMM Do YYYY, h:mm:ss a')], of the
    [moment] library). *)
Record TimeKeeper : Type := MkTimeKeeper {
  now : N;
  format : N → string;
}.

(** What the facade reads from the rebalancing set token, in seconds. *)
Record RebalanceTiming : Type := MkTiming {
  lastRebalanceTimestamp : N;
  rebalanceInterval : N;
}.

(** The instant from which a propose is allowed, in milliseconds. *)
Definition nextAvailableRebalance (token : RebalanceTiming) : N :=
  (lastRebalanceTimestamp token + rebalanceInterval token) * 1000.

(** The message the tests of the propose operations expect. *)
Definition REBALANCE_TOO_SOON (nextRebalanceFormattedDate : string)
    : string :=
  "Attempting to rebalance too soon. Rebalancing next available on "
    +:+ nextRebalanceFormattedDate.

(** Modelled from the spec: the time check of [proposeAsync] of
    [src/api/RebalancingAPI] and of [src/api/RebalancingManagerAPI], which
    are not among the sources (their tests are).  A propose made too soon
    fails with an error that embeds a "computed timestamp formatted as a
    human-readable date".  The message is the one the tests expect, and
    so is the side on which it is decided: with the clock of the chain
    moved past the rebalance interval, a propose goes through when the
    local clock is frozen at the next available instant and is rejected
    when it is frozen 10 ms before it.  [remote] is how the node settles
    the propose transaction.  The other checks of the method are left
    out. *)
Definition proposeAsync (clock : TimeKeeper) (token : RebalanceTiming)
    (remote : outcome string) : outcome string :=
  if (nextAvailableRebalance token <=? now clock)%N then remote
  else Rejected (REBALANCE_TOO_SOON
                   (format clock (nextAvailableRebalance token))).



End Proposing.
(* ================================================================== *)
(** * Facts about text *)
(* ================================================================== *)

Module TextFacts.
Import Text.

(** stdpp keeps [String.append] from unfolding under [simpl]; these two
    equations are used instead. *)
Lemma append_nil (s : string) : EmptyString +:+ s = s.
Proof. reflexivity. Qed.

Lemma append_cons (a : ascii) (s t : string) :
  String a s +:+ t = String a (s +:+ t).
Proof. reflexivity. Qed.

Lemma append_assoc (a b c : string) : (a +:+ b) +:+ c = a +:+ (b +:+ c).
Proof.
  induction a as [|x a IH]; [done |].
  by rewrite !append_cons, IH.
Qed.

Lemma is_prefix_refl (s : string) : is_prefix s s = true.
Proof.
  induction s as [|a s IH]; simpl; [done |].
  by rewrite bool_decide_eq_true_2.
Qed.

Lemma is_prefix_app (p s : string) : is_prefix p (p +:+ s) = true.
Proof.
  induction p as [|a p IH]; [done |].
  rewrite append_cons. simpl.
  by rewrite bool_decide_eq_true_2.
Qed.

Lemma is_prefix_inv (p s : string) :
  is_prefix p s = true → ∃ rest, s = p +:+ rest.
Proof.
  revert s. induction p as [|a p IH]; intros s H; simpl in *.
  - by exists s.
  - destruct s as [|b s]; [done |].
    apply andb_prop in H as [Hab Hp].
    apply bool_decide_eq_true_1 in Hab as ->.
    destruct (IH _ Hp) as [rest ->]. by exists rest.
Qed.

Lemma includes_prefix (hay needle : string) :
  is_prefix needle hay = true → includes hay needle = true.
Proof. intros H. destruct hay; simpl in *; by rewrite H. Qed.

Lemma includes_app (pre needle post : string) :
  includes (pre +:+ needle +:+ post) needle = true.
Proof.
  induction pre as [|a pre IH].
  - rewrite append_nil. apply includes_prefix, is_prefix_app.
  - rewrite append_cons. simpl. rewrite IH. apply orb_true_r.
Qed.

Lemma includes_inv (hay needle : string) :
  includes hay needle = true → ∃ pre post, hay = pre +:+ needle +:+ post.
Proof.
  induction hay as [|a hay IH]; simpl; intros H.
  - rewrite orb_false_r in H. apply is_prefix_inv in H as [rest ->].
    by exists EmptyString, rest.
  - apply orb_prop in H as [H|H].
    + apply is_prefix_inv in H as [rest ->]. by exists EmptyString, rest.
    + destruct (IH H) as (pre & post & ->).
      by exists (String a pre), post.
Qed.

(** A text that includes [needle] keeps including it when more text is
    put to its left or to its right. *)
Lemma includes_app_l (a b needle : string) :
  includes a needle = true → includes (a +:+ b) needle = true.
Proof.
  intros H. apply includes_inv in H as (pre & post & ->).
  rewrite !append_assoc. apply includes_app.
Qed.

Lemma includes_app_r (a b needle : string) :
  includes b needle = true → includes (a +:+ b) needle = true.
Proof.
  intros H. apply includes_inv in H as (pre & post & ->).
  rewrite <- append_assoc. apply includes_app.
Qed.

Lemma includes_refl (s : string) : includes s s = true.
Proof. apply includes_prefix, is_prefix_refl. Qed.

End TextFacts.

(* ================================================================== *)
(** * Properties of the resolver *)
(* ================================================================== *)

Module ResolverFacts.
Import ProtocolContractWrapper Examples.

Lemma load_unfold (k : ContractKind) : load k = loadAsync (cachePrefix k) k.
Proof. by destruct k. Qed.

(** No cache key is the name of an inherited property, so [in] on the
    cache only ever sees stored handles. *)
Lemma cacheKey_not_inherited (k : ContractKind) (a : Address) :
  cacheKey k a ∉ Object_prototype.
Proof.
  unfold Object_prototype. intros H.
  repeat (apply elem_of_cons in H as [H|H];
          [destruct k; vm_compute in H; discriminate |]).
  by apply elem_of_nil in H.
Qed.

Lemma js_in_cacheKey (k : ContractKind) (a : Address) (c : gmap string Handle) :
  js_in (cacheKey k a) c = bool_decide (is_Some (c !! cacheKey k a)).
Proof.
  unfold js_in.
  rewrite (bool_decide_eq_false_2 (cacheKey k a ∈ Object_prototype))
    by apply cacheKey_not_inherited.
  apply orb_false_r.
Qed.

(** Keys agree only when prefixes and addresses agree: no prefix
    contains the separator. *)
Lemma cacheKey_inj (k1 k2 : ContractKind) (a1 a2 : Address) :
  cacheKey k1 a1 = cacheKey k2 a2 →
  cachePrefix k1 = cachePrefix k2 ∧ a1 = a2.
Proof.
  intros H.
  destruct k1, k2; vm_compute in H; try discriminate H;
    (split; [reflexivity | congruence]).
Qed.

(** The only two kinds that share a prefix. *)
Lemma cachePrefix_shared (k1 k2 : ContractKind) :
  cachePrefix k1 = cachePrefix k2 → k1 ≠ k2 →
  (k1 = VaultContract ∧ k2 = TransferProxyContract) ∨
  (k1 = TransferProxyContract ∧ k2 = VaultContract).
Proof. destruct k1, k2; simpl; intros H Hne; try discriminate H; tauto. Qed.

(** ** The three ways a load settles *)

Lemma load_hit (k : ContractKind) (this : t) (a : Address) (o : Tx)
    (p : Process) (h : Handle) :
  cache_of this p !! cacheKey k a = Some h →
  load k this a o p = (Resolved (Contract h), p).
Proof.
  intros H. rewrite load_unfold.
  unfold loadAsync, bind, read_cache; cbv zeta.
  change (cachePrefix k +:+ "_" +:+ a) with (cacheKey k a).
  rewrite js_in_cacheKey, bool_decide_eq_true_2 by eauto.
  unfold resolve, js_get. by rewrite H.
Qed.

Lemma load_built (k : ContractKind) (this : t) (a : Address) (o : Tx)
    (p : Process) :
  cache_of this p !! cacheKey k a = None →
  contract_at (web3 this) (wire p) k a = None →
  load k this a o p =
    (Resolved (Contract (MkHandle (allocated p) k a o)),
     MkProcess (S (allocated p))
       (<[cache this :=
            <[cacheKey k a := MkHandle (allocated p) k a o]> (cache_of this p)]>
          (caches p))
       (wire p ++ [At k a (Some (allocated p))])).
Proof.
  intros Hmiss Hat. rewrite load_unfold.
  unfold loadAsync, bind, read_cache; cbv zeta.
  change (cachePrefix k +:+ "_" +:+ a) with (cacheKey k a).
  rewrite js_in_cacheKey, bool_decide_eq_false_2
    by (rewrite Hmiss; by intros [? ?]).
  unfold at_. rewrite Hat. reflexivity.
Qed.

Lemma load_rejected (k : ContractKind) (this : t) (a : Address) (o : Tx)
    (p : Process) (message : string) :
  cache_of this p !! cacheKey k a = None →
  contract_at (web3 this) (wire p) k a = Some message →
  load k this a o p =
    (Rejected message,
     MkProcess (allocated p) (caches p) (wire p ++ [At k a None])).
Proof.
  intros Hmiss Hat. rewrite load_unfold.
  unfold loadAsync, bind, read_cache; cbv zeta.
  change (cachePrefix k +:+ "_" +:+ a) with (cacheKey k a).
  rewrite js_in_cacheKey, bool_decide_eq_false_2
    by (rewrite Hmiss; by intros [? ?]).
  unfold at_. rewrite Hat. reflexivity.
Qed.

(** Case analysis on a load, for the proofs below. *)
Ltac load_cases k this a o p :=
  let Hc := fresh "Hcache" in
  let Ha := fresh "Hat" in
  let h := fresh "h" in
  let m := fresh "message" in
  let node := eval cbn in (web3 this) in
  destruct (cache_of this p !! cacheKey k a) as [h|] eqn:Hc;
  [ rewrite (load_hit k this a o p h Hc)
  | destruct (contract_at node (wire p) k a) as [m|] eqn:Ha;
    [ rewrite (load_rejected k this a o p m Hc Ha)
    | rewrite (load_built k this a o p Hc Ha) ] ].

Lemma cache_of_write (this : t) (p : Process) (n : nat)
    (c : gmap string Handle) (log : list Interaction) :
  cache_of this (MkProcess n (<[cache this := c]> (caches p)) log) = c.
Proof. unfold cache_of. simpl. by rewrite lookup_insert_eq. Qed.

Lemma cache_of_same_caches (this : t) (p : Process) (n : nat)
    (log : list Interaction) :
  cache_of this (MkProcess n (caches p) log) = cache_of this p.
Proof. reflexivity. Qed.

(** ** One load preserves the shape of the cache *)

Lemma constructions_app (k : ContractKind) (a : Address)
    (l1 l2 : list Interaction) :
  constructions k a (l1 ++ l2) = constructions k a l1 ++ constructions k a l2.
Proof.
  induction l1 as [|i l1 IH]; [done |].
  destruct i as [k' a' [r|] | |]; simpl; rewrite ?IH; try done.
  by case_bool_decide.
Qed.

Lemma new_well_formed (node : Web3) (p0 p : Process) (this : t) :
  new node p0 = (Resolved this, p) →
  cache_of this p = ∅ ∧ well_formed this p ∧ constructed_once this p [].
Proof.
  unfold new. intros [= <- <-].
  assert (Hc : cache_of (MkWrapper node (allocated p0))
                 (MkProcess (S (allocated p0))
                    (<[allocated p0 := ∅]> (caches p0)) (wire p0)) = ∅).
  { unfold cache_of. simpl. by rewrite lookup_insert_eq. }
  split; [exact Hc |]. split.
  - unfold well_formed. rewrite Hc. split; intros *; by rewrite lookup_empty.
  - intros k a. simpl. split; [lia | done].
Qed.

Lemma load_step (this : t) (k : ContractKind) (a : Address) (o : Tx)
    (p p' : Process) (out : outcome JsValue) :
  well_formed this p →
  load k this a o p = (out, p') →
  ∃ log1,
    wire p' = wire p ++ log1 ∧
    well_formed this p' ∧
    cache_of this p ⊆ cache_of this p' ∧
    (∀ v, out = Resolved v →
       ∃ h, v = Contract h ∧ cache_of this p' !! cacheKey k a = Some h) ∧
    (∀ k' a', constructions k' a' log1 ≠ [] →
       length (constructions k' a' log1) = 1 ∧
       cache_of this p !! cacheKey k' a' = None ∧
       is_Some (cache_of this p' !! cacheKey k' a')).
Proof.
  intros [Hlt Hinj]. load_cases k this a o p; intros [= <- <-].
  - (* hit *)
    exists []. rewrite app_nil_r. repeat split; try done.
    intros v [= <-]. eauto.
  - (* the awaited [at] rejects *)
    exists [At k a None]. simpl. repeat split; try done.
  - (* a handle is built and stored *)
    exists [At k a (Some (allocated p))]. unfold well_formed. simpl.
    rewrite !cache_of_write.
    split; [done |]. split; [| split; [| split]].
    + split.
      * intros key h0. rewrite lookup_insert. case_decide.
        -- intros [= <-]. simpl. lia.
        -- intros Hk. apply Hlt in Hk. lia.
      * intros key1 key2 h1 h2. rewrite !lookup_insert.
        repeat case_decide; subst; try done.
        -- intros [= <-] Hk Href. apply Hlt in Hk. simpl in Href. lia.
        -- intros Hk [= <-] Href. apply Hlt in Hk. simpl in Href. lia.
        -- apply Hinj.
    + by apply insert_subseteq.
    + intros v [= <-]. eexists. split; [done |]. by rewrite lookup_insert_eq.
    + intros k' a'. case_bool_decide as Hka; [| done].
      destruct Hka as [-> ->]. intros _.
      split; [done |]. split; [done |]. rewrite lookup_insert_eq. eauto.
Qed.

(** ** A whole run of successive loads *)

Lemma run_invariant (this : t) (requests : list Request) :
  ∀ (p p' : Process) (outs : list (outcome JsValue)) (log0 : list Interaction),
    well_formed this p →
    constructed_once this p log0 →
    run this requests p = (outs, p') →
    ∃ log1,
      wire p' = wire p ++ log1 ∧
      well_formed this p' ∧
      constructed_once this p' (log0 ++ log1) ∧
      cache_of this p ⊆ cache_of this p' ∧
      (∀ i r v, requests !! i = Some r → outs !! i = Some (Resolved v) →
         ∃ h, v = Contract h ∧
              cache_of this p' !! cacheKey (req_kind r) (req_address r) = Some h).
Proof.
  induction requests as [|r rest IH]; intros p p' outs log0 Hwf Honce Hrun.
  - simpl in Hrun. injection Hrun as <- <-.
    exists []. rewrite !app_nil_r.
    split; [done |]. split; [done |]. split; [done |]. split; [done |].
    intros i r v Hr. by rewrite lookup_nil in Hr.
  - simpl in Hrun.
    destruct (load (req_kind r) this (req_address r) (req_options r) p)
      as [out p1] eqn:Hload.
    destruct (run this rest p1) as [outs' p2] eqn:Hrest.
    injection Hrun as <- <-.
    destruct (load_step _ _ _ _ _ _ _ Hwf Hload)
      as (log1 & Hw1 & Hwf1 & Hsub1 & Hout1 & Hcons1).
    assert (Honce1 : constructed_once this p1 (log0 ++ log1)).
    { intros k a. rewrite constructions_app, length_app.
      destruct (Honce k a) as [Hlen Hin].
      destruct (constructions k a log1) as [|x l] eqn:E.
      - rewrite app_nil_r. simpl. split; [lia |].
        intros Hne. destruct (Hin Hne) as [h Hh].
        exists h. by eapply lookup_weaken.
      - destruct (Hcons1 k a) as (Hone & Hmiss & Hsome); [by rewrite E |].
        rewrite E in Hone.
        destruct (constructions k a log0) as [|y l0] eqn:E0.
        + simpl in *. split; [lia | by intros _].
        + exfalso. destruct Hin as [h Hh]; [done |]. congruence. }
    destruct (IH _ _ _ _ Hwf1 Honce1 Hrest)
      as (log2 & Hw2 & Hwf2 & Honce2 & Hsub2 & Houts).
    exists (log1 ++ log2). rewrite Hw2, Hw1, <- !app_assoc.
    rewrite <- app_assoc in Honce2.
    split; [done |]. split; [done |]. split; [done |].
    split; [by etrans |].
    intros [|i] r' v Hr Hv; simpl in *.
    + injection Hr as <-. injection Hv as ->.
      destruct (Hout1 v eq_refl) as (h & -> & Hh).
      exists h. split; [done |]. by eapply lookup_weaken.
    + eauto.
Qed.

(** ** Loads that overlap *)

(** A loader is its part before the [await] followed by its part
    after. *)
Lemma loadAsync_begin_resume (prefix : string) (k : ContractKind) (this : t)
    (a : Address) (o : Tx) (p : Process) :
  loadAsync prefix k this a o p
    = load_resume this (load_begin prefix k this a o p) p.
Proof.
  unfold loadAsync, load_begin, bind, read_cache. cbv zeta.
  by destruct (js_in _ _).
Qed.

(** Two loads of the same key that both pass the cache test before either
    resumes construct a handle each; the cache keeps the later one. *)
Lemma overlapping_loads_construct_twice :
  let this := MkWrapper node_ok 0 in
  let p := snd (new node_ok boot) in
  let first := load_begin "Core" CoreContract this address_1 no_options p in
  let second := load_begin "Core" CoreContract this address_1 no_options p in
  let program :=
    await h1 := load_resume this first in
    await h2 := load_resume this second in
    resolve (h1, h2) in
  fst (program p) =
    Resolved (Contract (MkHandle 1 CoreContract address_1 no_options),
              Contract (MkHandle 2 CoreContract address_1 no_options)) ∧
  constructions CoreContract address_1 (wire (snd (program p))) = [1; 2] ∧
  cache_of this (snd (program p)) !! cacheKey CoreContract address_1
    = Some (MkHandle 2 CoreContract address_1 no_options).
Proof. repeat split; reflexivity. Qed.

(** ** What the resolver guarantees *)

(** C1, as amended.  Each resolver instance, from its construction on and
    for loads awaited one after the other, constructs at most one handle
    for a pair (kind, address); all its loads of the same (kind, address)
    that resolve give the same handle object; and its loads of two
    distinct kinds give distinct handle objects, unless the two kinds are
    Vault and TransferProxy. *)
Theorem resolver_instance_memoizes (node : Web3) (p0 p p' : Process)
    (this : t) (requests : list Request) (outs : list (outcome JsValue)) :
  new node p0 = (Resolved this, p) →
  run this requests p = (outs, p') →
  (∀ k a,
     length (constructions k a (drop (length (wire p)) (wire p'))) ≤ 1) ∧
  (∀ i j ri rj vi vj,
     requests !! i = Some ri → requests !! j = Some rj →
     outs !! i = Some (Resolved vi) → outs !! j = Some (Resolved vj) →
     ∃ hi hj,
       vi = Contract hi ∧ vj = Contract hj ∧
       (req_kind ri = req_kind rj → req_address ri = req_address rj →
        hi = hj) ∧
       (req_kind ri ≠ req_kind rj →
        shares_vault_prefix (req_kind ri)
          && shares_vault_prefix (req_kind rj) = false →
        ref hi ≠ ref hj)).
Proof.
  intros Hnew Hrun.
  destruct (new_well_formed _ _ _ _ Hnew) as (_ & Hwf & Honce).
  destruct (run_invariant _ _ _ _ _ _ Hwf Honce Hrun)
    as (log1 & Hw & [_ Hinj] & Honce' & _ & Houts).
  split.
  - intros k a. rewrite Hw, drop_app_length. apply Honce'.
  - intros i j ri rj vi vj Hri Hrj Hvi Hvj.
    destruct (Houts _ _ _ Hri Hvi) as (hi & -> & Hci).
    destruct (Houts _ _ _ Hrj Hvj) as (hj & -> & Hcj).
    exists hi, hj. split; [done |]. split; [done |]. split.
    + intros Hk Ha. rewrite Hk, Ha in Hci. congruence.
    + intros Hk Hshare Href.
      pose proof (Hinj _ _ _ _ Hci Hcj Href) as Hkey.
      apply cacheKey_inj in Hkey as [Hpre _].
      destruct (cachePrefix_shared _ _ Hpre Hk) as [[E1 E2]|[E1 E2]];
        rewrite E1, E2 in Hshare; discriminate Hshare.
Qed.

Lemma resolver_instance_memoizes_witness :
  let this := MkWrapper node_ok 0 in
  let requests :=
    [ MkRequest CoreContract address_1 no_options;
      MkRequest SetTokenContract address_1 no_options;
      MkRequest CoreContract address_1 (MkTx (Some address_2) None None) ] in
  let p := snd (new node_ok boot) in
  new node_ok boot = (Resolved this, p) ∧
  run this requests p = (fst (run this requests p), snd (run this requests p)) ∧
  (∀ k a,
     length (constructions k a
               (drop (length (wire p)) (wire (snd (run this requests p))))) ≤ 1) ∧
  (∀ i j ri rj vi vj,
     requests !! i = Some ri → requests !! j = Some rj →
     fst (run this requests p) !! i = Some (Resolved vi) →
     fst (run this requests p) !! j = Some (Resolved vj) →
     ∃ hi hj,
       vi = Contract hi ∧ vj = Contract hj ∧
       (req_kind ri = req_kind rj → req_address ri = req_address rj →
        hi = hj) ∧
       (req_kind ri ≠ req_kind rj →
        shares_vault_prefix (req_kind ri)
          && shares_vault_prefix (req_kind rj) = false →
        ref hi ≠ ref hj)).
Proof.
  intros this requests p.
  split; [reflexivity |]. split; [reflexivity |].
  apply (resolver_instance_memoizes node_ok boot p _ this requests _);
    reflexivity.
Defined.

(** C1, as stated, fails: the cache is a field of each wrapper instance,
    and every [ProtocolViewerWrapper] makes a wrapper of its own.  Two
    viewer wrappers in one process construct two handles for the same
    (kind, address), and their callers hold different objects. *)
Lemma one_handle_per_instance_not_per_process :
  let program :=
    await v1 := ProtocolViewerWrapper.new node_ok address_1 in
    await v2 := ProtocolViewerWrapper.new node_ok address_1 in
    await h1 := loadProtocolViewerContract
                  (ProtocolViewerWrapper.contracts v1) address_1 no_options in
    await h2 := loadProtocolViewerContract
                  (ProtocolViewerWrapper.contracts v2) address_1 no_options in
    resolve (h1, h2) in
  fst (program boot) =
    Resolved
      (Contract (MkHandle 2 ProtocolViewerContract address_1 no_options),
       Contract (MkHandle 3 ProtocolViewerContract address_1 no_options)) ∧
  constructions ProtocolViewerContract address_1 (wire (snd (program boot)))
    = [2; 3].
Proof. split; reflexivity. Qed.

(** The loader of the transfer proxy computes its key with the prefix of
    the vault, so the two loaders read and write the same cache entry:
    once a vault load has resolved at an address, a transfer proxy load
    at that address resolves to the very same object and constructs
    nothing. *)
Lemma loadTransferProxyAsync_shares_vault_entry (this : t) (a : Address)
    (o1 o2 : Tx) (p p1 : Process) (v : JsValue) :
  loadVaultAsync this a o1 p = (Resolved v, p1) →
  loadTransferProxyAsync this a o2 p1 = (Resolved v, p1).
Proof.
  change (loadVaultAsync this a o1 p) with (load VaultContract this a o1 p).
  change (loadTransferProxyAsync this a o2 p1)
    with (load TransferProxyContract this a o2 p1).
  load_cases VaultContract this a o1 p; intros [= <- <-].
  - apply load_hit. exact Hcache.
  - apply load_hit. rewrite cache_of_write.
    change (cacheKey TransferProxyContract a) with (cacheKey VaultContract a).
    by rewrite lookup_insert_eq.
Qed.

(** On a fresh wrapper: the transfer proxy the caller gets is a
    [VaultContract] binding. *)
Lemma loadTransferProxyAsync_after_loadVaultAsync :
  let this := MkWrapper node_ok 0 in
  let p := snd (new node_ok boot) in
  let program :=
    await vault := loadVaultAsync this address_1 no_options in
    await transferProxy := loadTransferProxyAsync this address_1 no_options in
    resolve (vault, transferProxy) in
  fst (program p) =
    Resolved (Contract (MkHandle 1 VaultContract address_1 no_options),
              Contract (MkHandle 1 VaultContract address_1 no_options)) ∧
  constructions TransferProxyContract address_1 (wire (snd (program p))) = [].
Proof. split; reflexivity. Qed.

(** C2.  When a load of (kind, address) resolves, the next load of the
    same kind and address on that resolver resolves to the same handle
    object, whatever options it is given, and leaves the process as it
    was: nothing is constructed and nothing goes over the wire. *)
Theorem load_twice_same_handle (k : ContractKind) (this : t) (a : Address)
    (o1 o2 : Tx) (p p1 : Process) (v : JsValue) :
  load k this a o1 p = (Resolved v, p1) →
  ∃ h, v = Contract h ∧
       load k this a o2 p1 = (Resolved (Contract h), p1).
Proof.
  load_cases k this a o1 p; intros [= <- <-].
  - exists h. split; [done |]. by apply load_hit.
  - eexists. split; [done |]. apply load_hit.
    rewrite cache_of_write. by rewrite lookup_insert_eq.
Qed.

Lemma load_twice_same_handle_witness :
  let this := MkWrapper node_ok 0 in
  let p := snd (new node_ok boot) in
  let first := loadCoreAsync this address_1 no_options p in
  first = (Resolved (Contract (MkHandle 1 CoreContract address_1 no_options)),
           snd first) ∧
  ∃ h, Contract (MkHandle 1 CoreContract address_1 no_options) = Contract h ∧
       load CoreContract this address_1 (MkTx (Some address_2) None None)
         (snd first)
       = (Resolved (Contract h), snd first).
Proof.
  intros this p first. split; [reflexivity |].
  apply (load_twice_same_handle CoreContract this address_1 no_options
           (MkTx (Some address_2) None None) p (snd first)).
  reflexivity.
Defined.

(** C6, as amended.  A load makes no check of its own, of the address
    format or of anything else: on a cache hit it resolves to the cached
    handle, and on a miss it settles as the awaited [at] of the binding
    does, rejecting with the message of [at] exactly when [at] rejects. *)
Theorem load_settles_as_at (k : ContractKind) (this : t) (a : Address)
    (o : Tx) (p : Process) :
  fst (load k this a o p) =
    match cache_of this p !! cacheKey k a with
    | Some h => Resolved (Contract h)
    | None =>
        match contract_at (web3 this) (wire p) k a with
        | Some message => Rejected message
        | None => Resolved (Contract (MkHandle (allocated p) k a o))
        end
    end.
Proof. by load_cases k this a o p. Qed.

(** C6, as stated, fails: the loader awaits [CoreContract.at] without a
    [catch], so on a node that finds no contract at the address the load
    itself rejects. *)
Lemma load_rejects_when_at_rejects :
  fst (loadCoreAsync (MkWrapper node_empty 0) address_1 no_options
         (snd (new node_empty boot)))
  = Rejected "Contract not found on network".
Proof. reflexivity. Qed.

End ResolverFacts.

(* ================================================================== *)
(** * Properties of the ERC20 facade *)
(* ================================================================== *)

Module FacadeFacts.
Import Text TextFacts SchemaAssertions ERC20API ResolverFacts Examples.

(** ** Validation comes first *)

Lemma validation_error_names (variableName value : string) :
  includes (validation_error variableName value) variableName = true ∧
  includes (validation_error variableName value) value = true.
Proof.
  unfold validation_error. split.
  - do 3 apply includes_app_r. apply includes_app_l, includes_refl.
  - do 10 apply includes_app_r. apply includes_app_l, includes_refl.
Qed.

Lemma forEach_isValidAddress (variableName : string) (l : list Address)
    (p : Process) :
  forEach l (λ a, isValidAddress variableName a) p =
    match first_failure (map (λ a, (variableName, a)) l) with
    | Some arg => (Rejected (validation_error arg.1 arg.2), p)
    | None => (Resolved tt, p)
    end.
Proof.
  induction l as [|a l IH]; [done |].
  unfold first_failure in *. simpl.
  unfold bind, isValidAddress at 1, conformsToAddress.
  destruct (matches_address_pattern a); simpl; [exact IH | done].
Qed.

(** Run the checks at the head of a method, one case split per check. *)
Ltac step_checks :=
  repeat first
    [ rewrite forEach_isValidAddress
    | match goal with
      | |- context [isValidAddress ?n ?v ?q] =>
          change (isValidAddress n v q) with (conformsToAddress n v, q);
          unfold conformsToAddress;
          destruct (matches_address_pattern v);
          cbv beta iota delta [negb]
      end ].

Lemma invoke_validates_first (this : t) (i : Invocation) (p : Process) :
  invoke this i p =
    match first_failure (checks i) with
    | Some arg => (Rejected (validation_error arg.1 arg.2), p)
    | None => forward this i p
    end.
Proof.
  destruct i; simpl;
    unfold getBalanceOfAsync, getBalancesOfAsync, getNameAsync,
      getSymbolAsync, getTotalSupplyAsync, getTotalSuppliesAsync,
      getDecimalsAsync, getAllowanceAsync, transferAsync, transferFromAsync,
      approveAsync, assertGetBalanceOf, assertGetBalancesOf,
      assertGetAllowance, assertTransfer, assertTransferFrom, assertApprove,
      assertGetTotalSuppliesAsync, bind, first_failure;
    simpl find; step_checks; try reflexivity;
    unfold first_failure; by destruct (find _ _).
Qed.

Lemma checks_elem_of (i : Invocation) (arg : string * Address) :
  arg ∈ checks i ↔ arg ∈ address_arguments i.
Proof.
  destruct i; simpl; try done.
  rewrite elem_of_cons, elem_of_app, list_elem_of_singleton. tauto.
Qed.

Lemma first_failure_Some (l : list (string * Address)) (arg : string * Address) :
  first_failure l = Some arg →
  arg ∈ l ∧ matches_address_pattern arg.2 = false.
Proof.
  unfold first_failure. intros H. apply find_some in H as [Hin Hf].
  split; [by apply list_elem_of_In |]. by apply negb_true_iff.
Qed.

Lemma first_failure_None (l : list (string * Address)) :
  first_failure l = None ↔
  Forall (λ arg, matches_address_pattern arg.2 = true) l.
Proof.
  unfold first_failure. rewrite Forall_forall. split.
  - intros H arg Hin. apply list_elem_of_In in Hin.
    pose proof (find_none _ _ H arg Hin) as Hf. simpl in Hf.
    by apply negb_false_iff.
  - intros H.
    match goal with |- ?f = None => destruct f as [arg|] eqn:E end; [| done].
    apply find_some in E as [Hin Hf]. apply list_elem_of_In, H in Hin.
    rewrite Hin in Hf. discriminate Hf.
Qed.

(** C3.  Every method of the ERC20 facade, given an address-typed
    argument that does not match the address pattern, rejects with the
    validation error of an address-typed argument that does not match it
    (the first one its assertion looks at), a message that names the
    argument and the offending value; the process is left as it was, so
    no contract was resolved and nothing went over the wire. *)
Theorem malformed_address_rejected_before_any_call (this : t)
    (i : Invocation) (p : Process) :
  Exists (λ arg, matches_address_pattern arg.2 = false)
         (address_arguments i) →
  ∃ variableName value,
    (variableName, value) ∈ address_arguments i ∧
    matches_address_pattern value = false ∧
    invoke this i p = (Rejected (validation_error variableName value), p) ∧
    includes (validation_error variableName value) variableName = true ∧
    includes (validation_error variableName value) value = true.
Proof.
  intros Hbad. rewrite invoke_validates_first.
  destruct (first_failure (checks i)) as [[n v]|] eqn:E.
  - apply first_failure_Some in E as [Hin Hv].
    exists n, v. split; [by apply checks_elem_of |]. split; [done |].
    split; [done |]. apply validation_error_names.
  - exfalso. apply first_failure_None in E.
    apply Exists_exists in Hbad as (arg & Hin & Harg).
    rewrite Forall_forall in E.
    apply checks_elem_of, E in Hin. congruence.
Qed.

Lemma malformed_address_rejected_before_any_call_witness :
  let i := GetBalancesOf [address_1; "InvalidTokenAddress"] address_2 in
  Exists (λ arg, matches_address_pattern arg.2 = false)
         (address_arguments i) ∧
  ∃ variableName value,
    (variableName, value) ∈ address_arguments i ∧
    matches_address_pattern value = false ∧
    invoke (facade_on node_ok) i started
      = (Rejected (validation_error variableName value), started) ∧
    includes (validation_error variableName value) variableName = true ∧
    includes (validation_error variableName value) value = true.
Proof.
  intros i.
  assert (H : Exists (λ arg, matches_address_pattern arg.2 = false)
                     (address_arguments i)).
  { apply Exists_cons_tl, Exists_cons_hd. reflexivity. }
  split; [exact H |].
  exact (malformed_address_rejected_before_any_call
           (facade_on node_ok) i started H).
Defined.

(** ** After validation, the node decides *)

Lemma new_uses (node : Web3) (config : SetProtocolConfig) (p p' : Process)
    (this : t) :
  new node config p = (Resolved this, p') → uses node this.
Proof. intros [= <- <-]. by repeat split. Qed.

Lemma facade_on_started (node : Web3) :
  new node (MkConfig address_3) boot = (Resolved (facade_on node), started).
Proof. reflexivity. Qed.

Lemma invoke_forwards (this : t) (i : Invocation) (p : Process) :
  well_formed_arguments i → invoke this i p = forward this i p.
Proof.
  intros Hok. rewrite invoke_validates_first.
  replace (first_failure (checks i)) with (@None (string * Address));
    [done |].
  symmetry. apply first_failure_None. rewrite Forall_forall. intros arg Hin.
  apply checks_elem_of in Hin. revert arg Hin. by apply Forall_forall.
Qed.

Section OnOneNode.

(** A facade all of whose parts talk to one node, as [new] builds it. *)
Context (node : Web3) (this : t) (Huses : uses node this).

(** What the wrapper call at the end of a method settles to, in terms of
    the cache and of the answers of the node. *)
Lemma forward_settles (i : Invocation) (p : Process) :
  fst (forward this i p) =
    match cache_of (resolver this i) p
            !! cacheKey (target this i).1 (target this i).2 with
    | Some h => node_settles node (wire p) h i
    | None =>
        match contract_at node (wire p) (target this i).1 (target this i).2 with
        | Some m => Rejected m
        | None =>
            node_settles node
              (wire p ++ [At (target this i).1 (target this i).2
                             (Some (allocated p))])
              (MkHandle (allocated p) (target this i).1 (target this i).2
                        no_options) i
        end
    end.
Proof.
  destruct this as [[w1 [n1 c1]] [w2 [n2 c2] va]].
  destruct Huses as (H1 & H2 & H3 & H4). simpl in *. subst w1 n1 w2 n2.
  destruct i; simpl;
    unfold ERC20Wrapper.balanceOf, ERC20Wrapper.name, ERC20Wrapper.symbol,
      ERC20Wrapper.totalSupply, ERC20Wrapper.decimals, ERC20Wrapper.allowance,
      ERC20Wrapper.transfer, ERC20Wrapper.transferFrom, ERC20Wrapper.approve,
      ERC20Wrapper.read, ERC20Wrapper.write,
      ProtocolViewerWrapper.batchFetchBalancesOf,
      ProtocolViewerWrapper.batchFetchSupplies, bind; simpl;
    match goal with
    | |- context [loadERC20TokenAsync ?w ?a ?o ?q] =>
        change (loadERC20TokenAsync w a o q)
          with (load ERC20DetailedContract w a o q);
        load_cases ERC20DetailedContract w a o q
    | |- context [loadProtocolViewerContract ?w ?a ?o ?q] =>
        change (loadProtocolViewerContract w a o q)
          with (load ProtocolViewerContract w a o q);
        load_cases ProtocolViewerContract w a o q
    end;
    try reflexivity;
    unfold node_settles, sendOn, sendTransactionAsync, bind, and_then; simpl;
    by destruct (eth_send _ _ _ _ _).
Qed.


(** ** Batch reads *)

(** The batch reads hand the list to the viewer contract as it was
    submitted and hand its answer back as it came. *)
Lemma batch_reads_forward (tokenAddresses : list Address)
    (userAddress : Address) (p : Process) :
  (∀ log, contract_at node log ProtocolViewerContract
            (ProtocolViewerWrapper.protocolViewerAddress
               (protocolViewerWrapper this)) = None) →
  Forall (λ a, matches_address_pattern a = true) tokenAddresses →
  matches_address_pattern userAddress = true →
  ∃ h log,
    fst (getTotalSuppliesAsync this tokenAddresses p)
      = eth_call node log h (BatchFetchSupplies tokenAddresses) ∧
    fst (getBalancesOfAsync this tokenAddresses userAddress p)
      = eth_call node log h (BatchFetchBalancesOf tokenAddresses userAddress).
Proof.
  intros Hviewer Htokens Huser.
  assert (Hs : well_formed_arguments (GetTotalSupplies tokenAddresses)).
  { unfold well_formed_arguments. simpl. by apply Forall_fmap. }
  assert (Hb : well_formed_arguments (GetBalancesOf tokenAddresses userAddress)).
  { unfold well_formed_arguments. simpl. apply Forall_app. split.
    - by apply Forall_fmap.
    - by repeat constructor. }
  pose proof (invoke_forwards this _ p Hs) as Es.
  pose proof (invoke_forwards this _ p Hb) as Eb.
  simpl in Es, Eb. rewrite Es, Eb.
  pose proof (forward_settles (GetTotalSupplies tokenAddresses) p) as Fs.
  pose proof (forward_settles (GetBalancesOf tokenAddresses userAddress) p)
    as Fb.
  simpl in Fs, Fb. rewrite Fs, Fb, Hviewer.
  destruct (cache_of _ p !! _) as [h|]; eauto.
Qed.

(** C10.  On a node whose viewer contract answers per address, and for
    well-formed addresses, [getTotalSuppliesAsync] and
    [getBalancesOfAsync] resolve to one value per submitted address, at
    the index of that address: nothing is filtered out, a zero stays
    where it was. *)
Theorem batch_reads_keep_alignment
    (supply : Address → N) (balance : Address → Address → N)
    (tokenAddresses : list Address) (userAddress : Address) (p : Process) :
  viewer_answers_per_address node supply balance →
  (∀ log, contract_at node log ProtocolViewerContract
            (ProtocolViewerWrapper.protocolViewerAddress
               (protocolViewerWrapper this)) = None) →
  Forall (λ a, matches_address_pattern a = true) tokenAddresses →
  matches_address_pattern userAddress = true →
  ∃ supplies balances,
    fst (getTotalSuppliesAsync this tokenAddresses p)
      = Resolved (Nums supplies) ∧
    fst (getBalancesOfAsync this tokenAddresses userAddress p)
      = Resolved (Nums balances) ∧
    length supplies = length tokenAddresses ∧
    length balances = length tokenAddresses ∧
    ∀ n a, tokenAddresses !! n = Some a →
      supplies !! n = Some (supply a) ∧
      balances !! n = Some (balance a userAddress).
Proof.
  intros Hviewer Hat Htokens Huser.
  destruct (batch_reads_forward tokenAddresses userAddress p
              Hat Htokens Huser) as (h & log & -> & ->).
  destruct (Hviewer log h tokenAddresses) as [-> Hb]. rewrite Hb.
  eexists _, _. split; [done |]. split; [done |].
  rewrite !length_map. split; [done |]. split; [done |].
  intros n a Hn. rewrite !list_lookup_fmap, Hn. done.
Qed.

End OnOneNode.

Lemma batch_reads_keep_alignment_witness :
  let tokenAddresses := [address_1; address_2; address_3] in
  uses node_viewer (facade_on node_viewer) ∧
  viewer_answers_per_address node_viewer example_supply example_balance ∧
  fst (getTotalSuppliesAsync (facade_on node_viewer) tokenAddresses started)
    = Resolved (Nums [1000; 0; 7]%N) ∧
  ∃ supplies balances,
    fst (getTotalSuppliesAsync (facade_on node_viewer) tokenAddresses started)
      = Resolved (Nums supplies) ∧
    fst (getBalancesOfAsync (facade_on node_viewer) tokenAddresses address_2
           started)
      = Resolved (Nums balances) ∧
    length supplies = length tokenAddresses ∧
    length balances = length tokenAddresses ∧
    ∀ n a, tokenAddresses !! n = Some a →
      supplies !! n = Some (example_supply a) ∧
      balances !! n = Some (example_balance a address_2).
Proof.
  intros tokenAddresses.
  assert (Hu : uses node_viewer (facade_on node_viewer)) by (by repeat split).
  assert (Hv : viewer_answers_per_address node_viewer example_supply
                 example_balance) by (by intros log h l).
  split; [exact Hu |]. split; [exact Hv |]. split; [reflexivity |].
  apply (batch_reads_keep_alignment node_viewer (facade_on node_viewer) Hu
           example_supply example_balance tokenAddresses address_2 started
           Hv).
  - reflexivity.
  - repeat constructor.
  - reflexivity.
Defined.

End FacadeFacts.

(* ================================================================== *)
(** * Where the errors of the facades come from *)
(* ================================================================== *)

Module ErrorSurfaceFacts.
Import Text TextFacts SchemaAssertions ERC20API FacadeFacts Proposing Examples.






End ErrorSurfaceFacts.

(* ================================================================== *)
(** * Properties of the rebalancing facades *)
(* ================================================================== *)

Module RebalancingFacts.
Import Text TextFacts SchemaAssertions RebalancingAPI Examples.

(** ** Token flows *)

Lemma tokenFlowComponents_nonzero (tokens : list Address) (units : list N) :
  Forall (λ c, c_unit c ≠ 0%N) (tokenFlowComponents tokens units).
Proof.
  apply Forall_forall. intros c Hc.
  unfold tokenFlowComponents in Hc. by apply list_elem_of_filter in Hc as [? _].
Qed.

Lemma tokenFlowComponents_elem_of (tokens : list Address) (units : list N)
    (c : Component) :
  c ∈ tokenFlowComponents tokens units ↔
  ∃ n, tokens !! n = Some (c_address c) ∧ units !! n = Some (c_unit c) ∧
       c_unit c ≠ 0%N.
Proof.
  unfold tokenFlowComponents.
  rewrite list_elem_of_filter, elem_of_lookup_zip_with. split.
  - intros (Hnz & n & a & u & -> & Ha & Hu). exists n. by simpl in *.
  - intros (n & Ha & Hu & Hnz). split; [done |].
    exists n, (c_address c), (c_unit c). by destruct c.
Qed.

Lemma tokenFlowComponents_sublist (tokens : list Address) (units : list N) :
  tokenFlowComponents tokens units
    `sublist_of` zip_with MkComponent tokens units.
Proof. apply sublist_filter. Qed.

(** C4.  On a rebalancing set token in Rebalance state and for a valid
    bid quantity, [getBidPriceAsync] resolves to token flows without a
    zero unit: the inflow (outflow) entries are exactly the pairs of a
    token address and the raw inflow (outflow) unit at the same index
    whose unit is not zero, in the order of the raw arrays. *)
Theorem getBidPriceAsync_omits_zero_units (rebalancingSetTokenAddress : Address)
    (bidQuantity : N) (token : RebalancingSetTokenView) :
  matches_address_pattern rebalancingSetTokenAddress = true →
  rebalanceState token = Rebalance →
  validBid bidQuantity token →
  ∃ flows,
    getBidPriceAsync rebalancingSetTokenAddress bidQuantity token
      = Resolved flows ∧
    Forall (λ c, c_unit c ≠ 0%N) (inflow flows) ∧
    Forall (λ c, c_unit c ≠ 0%N) (outflow flows) ∧
    (∀ c, c ∈ inflow flows ↔
          ∃ n, getCombinedTokenArray token !! n = Some (c_address c) ∧
               (getBidPrice token bidQuantity).1 !! n = Some (c_unit c) ∧
               c_unit c ≠ 0%N) ∧
    (∀ c, c ∈ outflow flows ↔
          ∃ n, getCombinedTokenArray token !! n = Some (c_address c) ∧
               (getBidPrice token bidQuantity).2 !! n = Some (c_unit c) ∧
               c_unit c ≠ 0%N) ∧
    inflow flows `sublist_of`
      zip_with MkComponent (getCombinedTokenArray token)
               (getBidPrice token bidQuantity).1 ∧
    outflow flows `sublist_of`
      zip_with MkComponent (getCombinedTokenArray token)
               (getBidPrice token bidQuantity).2.
Proof.
  intros Haddr Hstate [Hle Hmul].
  unfold getBidPriceAsync, conformsToAddress. rewrite Haddr, Hstate. simpl.
  rewrite (proj2 (N.leb_le _ _) Hle), (proj2 (N.eqb_eq _ _) Hmul). simpl.
  destruct (getBidPrice token bidQuantity) as [inflowUnits outflowUnits].
  eexists. split; [reflexivity |]. simpl.
  split; [apply tokenFlowComponents_nonzero |].
  split; [apply tokenFlowComponents_nonzero |].
  split; [apply tokenFlowComponents_elem_of |].
  split; [apply tokenFlowComponents_elem_of |].
  split; apply tokenFlowComponents_sublist.
Qed.

(** The test of the zero filter: two zero entries in each raw array, none
    in the result. *)
Example getBidPriceAsync_zero_filter_test :
  getBidPriceAsync address_1 7 token_in_rebalance =
    Resolved
      (MkTokenFlows
         [ MkComponent address_3 21; MkComponent address_4 28 ]
         [ MkComponent address_1 7; MkComponent address_2 14 ]).
Proof. reflexivity. Qed.

Lemma getBidPriceAsync_omits_zero_units_witness :
  let token := token_in_rebalance in
  matches_address_pattern address_1 = true ∧
  rebalanceState token = Rebalance ∧
  validBid 7 token ∧
  ∃ flows,
    getBidPriceAsync address_1 7 token = Resolved flows ∧
    Forall (λ c, c_unit c ≠ 0%N) (inflow flows) ∧
    Forall (λ c, c_unit c ≠ 0%N) (outflow flows) ∧
    (∀ c, c ∈ inflow flows ↔
          ∃ n, getCombinedTokenArray token !! n = Some (c_address c) ∧
               (getBidPrice token 7).1 !! n = Some (c_unit c) ∧
               c_unit c ≠ 0%N) ∧
    (∀ c, c ∈ outflow flows ↔
          ∃ n, getCombinedTokenArray token !! n = Some (c_address c) ∧
               (getBidPrice token 7).2 !! n = Some (c_unit c) ∧
               c_unit c ≠ 0%N) ∧
    inflow flows `sublist_of`
      zip_with MkComponent (getCombinedTokenArray token)
               (getBidPrice token 7).1 ∧
    outflow flows `sublist_of`
      zip_with MkComponent (getCombinedTokenArray token)
               (getBidPrice token 7).2.
Proof.
  intros token.
  assert (Hbid : validBid 7 token) by (split; [by vm_compute | reflexivity]).
  split; [reflexivity |]. split; [reflexivity |]. split; [exact Hbid |].
  exact (getBidPriceAsync_omits_zero_units address_1 7 token
           eq_refl eq_refl Hbid).
Defined.

(** ** The state gate *)

Lemma INCORRECT_STATE_names (a : Address) (required : RebalancingState) :
  includes (INCORRECT_STATE a required) a = true ∧
  includes (INCORRECT_STATE a required) (stateName required) = true.
Proof.
  unfold INCORRECT_STATE. split.
  - apply includes_app_r, includes_app_l, includes_refl.
  - do 3 apply includes_app_r. apply includes_app_l, includes_refl.
Qed.

Lemma REBALANCE_IN_PROGRESS_names (a : Address) :
  includes (REBALANCE_IN_PROGRESS a) a = true ∧
  includes (REBALANCE_IN_PROGRESS a) "is currently in rebalancing state"
    = true.
Proof.
  unfold REBALANCE_IN_PROGRESS. split.
  - apply includes_app_r, includes_app_l, includes_refl.
  - do 2 apply includes_app_r. apply includes_app_l.
    by vm_compute.
Qed.

(** C7, as amended.  A state-gated operation invoked on a token in a
    state in which it is not accepted fails with an error string that
    names the address of the token and, for startRebalance,
    settleRebalance, endFailedAuction, bid, redeemFromFailedRebalance and
    the propose of the rebalancing managers, the required state; the
    propose of the rebalancing facade, refused on a token in Rebalance
    state, fails with a string that names the address and says that the
    token is currently in rebalancing state. *)
Theorem wrong_state_rejected_naming_address (op : Operation)
    (rebalancingSetTokenAddress : Address) (current : RebalancingState) :
  accepted op current = false →
  ∃ message,
    stateGate op rebalancingSetTokenAddress current = Rejected message ∧
    includes message rebalancingSetTokenAddress = true ∧
    match requiredState op with
    | Some required =>
        current ≠ required ∧ includes message (stateName required) = true
    | None =>
        current = Rebalance ∧
        includes message "is currently in rebalancing state" = true
    end.
Proof.
  unfold accepted, stateGate. destruct (requiredState op) as [required|].
  - case_bool_decide as Hs; [done |]. intros _.
    eexists. split; [done |].
    destruct (INCORRECT_STATE_names rebalancingSetTokenAddress required).
    by repeat split.
  - case_bool_decide as Hs; [| done]. intros _.
    eexists. split; [done |].
    destruct (REBALANCE_IN_PROGRESS_names rebalancingSetTokenAddress).
    by repeat split.
Qed.

Lemma wrong_state_rejected_naming_address_witness :
  accepted startRebalanceAsync Default = false ∧
  ∃ message,
    stateGate startRebalanceAsync address_1 Default = Rejected message ∧
    includes message address_1 = true ∧
    (Default ≠ Proposal ∧ includes message (stateName Proposal) = true).
Proof.
  split; [reflexivity |].
  exact (wrong_state_rejected_naming_address startRebalanceAsync address_1
           Default eq_refl).
Defined.

(** The messages of the tests, at the first example address. *)
Example startRebalanceAsync_in_Default_test :
  stateGate startRebalanceAsync address_1 Default =
    Rejected "Rebalancing token at 0x0000000000000000000000000000000000000001 must be in Proposal state to call that function.".
Proof. reflexivity. Qed.

Example redeemFromFailedRebalanceAsync_in_Rebalance_test :
  stateGate redeemFromFailedRebalanceAsync address_1 Rebalance =
    Rejected "Rebalancing token at 0x0000000000000000000000000000000000000001 must be in Drawdown state to call that function.".
Proof. reflexivity. Qed.

(** C7, as stated, fails for propose: on a token in Rebalance state the
    message the test expects names the address but none of the states,
    so not the state propose requires. *)
Lemma proposeAsync_in_Rebalance_names_no_state :
  accepted proposeAsync Rebalance = false ∧
  ∃ message,
    stateGate proposeAsync address_1 Rebalance = Rejected message ∧
    message = "Rebalancing token at 0x0000000000000000000000000000000000000001 is currently in rebalancing state. Issue, Redeem, and propose functionality is not available during this time" ∧
    ∀ s, includes message (stateName s) = false.
Proof.
  split; [reflexivity |]. eexists. split; [reflexivity |].
  split; [reflexivity |]. intros s. by destruct s; vm_compute.
Qed.

(** ** The price trigger of the rebalancing managers *)

Import RebalancingManagerAPI.




(** The message of the tests of the two DAI managers, and the state
    message of the manager tests. *)
Example proposeAsync_DAI_price_trigger_test :
  proposeAsync ETHDAI address_1 (MkManagerView Default 54 47 55) =
    Rejected "Current DAI allocation 54% must be outside allocation bounds 47 and 55." ∧
  proposeAsync BTCDAI address_1 (MkManagerView Default 54 47 55) =
    Rejected "Current DAI allocation 54% must be outside allocation bounds 47 and 55." ∧
  proposeAsync BTCETH address_1 (MkManagerView Proposal 49 48 52) =
    Rejected "Rebalancing token at 0x0000000000000000000000000000000000000001 must be in Default state to call that function.".
Proof. repeat split; reflexivity. Qed.

End RebalancingFacts.

(* ================================================================== *)
(** * More on the resolver: failures, isolation, what the cache holds *)
(* ================================================================== *)

Module ResolverExtras.
Import ProtocolContractWrapper ResolverFacts Examples.

(** ** Single loads *)

Lemma load_keeps_entries (k : ContractKind) (this : t) (a : Address)
    (o : Tx) (p : Process) (key : string) (h : Handle) :
  cache_of this p !! key = Some h →
  cache_of this (snd (load k this a o p)) !! key = Some h.
Proof.
  intros Hkey. load_cases k this a o p; simpl; try done.
  rewrite cache_of_write, lookup_insert_ne; [done |].
  intros <-. congruence.
Qed.

Lemma load_entry_origin (k : ContractKind) (this : t) (a : Address)
    (o : Tx) (p : Process) (key : string) (h : Handle) :
  cache_of this (snd (load k this a o p)) !! key = Some h →
  cache_of this p !! key = Some h ∨
  (key = cacheKey k a ∧ h = MkHandle (allocated p) k a o).
Proof.
  load_cases k this a o p; simpl; try (by left).
  rewrite cache_of_write, lookup_insert. case_decide as Hk.
  - intros [= <-]. by right.
  - by left.
Qed.

Lemma load_other_caches (k : ContractKind) (this : t) (a : Address)
    (o : Tx) (p : Process) (r : nat) :
  r ≠ cache this →
  caches (snd (load k this a o p)) !! r = caches p !! r.
Proof.
  intros Hr. load_cases k this a o p; simpl; try done.
  by rewrite lookup_insert_ne.
Qed.

(** X1.  A load that rejects leaves no trace but the question it asked:
    nothing is cached, nothing is allocated, one [at] without a handle is
    on the wire.  The failure is not remembered: the next load of the same
    kind and address asks the node again and settles as the node answers
    then. *)
Theorem rejected_load_caches_nothing (k : ContractKind) (this : t)
    (a : Address) (o : Tx) (p p' : Process) (message : string) :
  load k this a o p = (Rejected message, p') →
  caches p' = caches p ∧
  allocated p' = allocated p ∧
  wire p' = wire p ++ [At k a None] ∧
  ∀ o', fst (load k this a o' p') =
          match contract_at (web3 this) (wire p') k a with
          | Some m => Rejected m
          | None => Resolved (Contract (MkHandle (allocated p) k a o'))
          end.
Proof.
  load_cases k this a o p; intros [= <- <-]. simpl.
  split; [done |]. split; [done |]. split; [done |]. intros o'.
  set (p1 := MkProcess (allocated p) (caches p) (wire p ++ [At k a None])).
  assert (Hmiss : cache_of this p1 !! cacheKey k a = None) by exact Hcache.
  destruct (contract_at (web3 this) (wire p ++ [At k a None]) k a)
    as [m|] eqn:E.
  - by rewrite (load_rejected k this a o' p1 m Hmiss E).
  - by rewrite (load_built k this a o' p1 Hmiss E).
Qed.

Lemma rejected_load_caches_nothing_witness :
  let this := MkWrapper node_empty 0 in
  let p := snd (new node_empty boot) in
  let p' := snd (loadCoreAsync this address_1 no_options p) in
  load CoreContract this address_1 no_options p
    = (Rejected "Contract not found on network", p') ∧
  caches p' = caches p ∧
  allocated p' = allocated p ∧
  wire p' = wire p ++ [At CoreContract address_1 None] ∧
  ∀ o', fst (load CoreContract this address_1 o' p') =
          match contract_at (web3 this) (wire p') CoreContract address_1 with
          | Some m => Rejected m
          | None =>
              Resolved (Contract (MkHandle (allocated p) CoreContract
                                            address_1 o'))
          end.
Proof.
  intros this p p'. split; [reflexivity |].
  apply (rejected_load_caches_nothing CoreContract this address_1 no_options
           p p' "Contract not found on network").
  reflexivity.
Defined.

(** X2.  The options of the load that built a handle stay with it: a
    later load of the same kind and address resolves to a handle whose
    defaults are the options of the first load, and the options it was
    given itself are dropped. *)
Theorem first_load_options_stick (k : ContractKind) (this : t) (a : Address)
    (o1 o2 : Tx) (p p1 : Process) (v : JsValue) :
  cache_of this p !! cacheKey k a = None →
  load k this a o1 p = (Resolved v, p1) →
  ∃ h, load k this a o2 p1 = (Resolved (Contract h), p1) ∧
       defaults h = o1 ∧ kind h = k ∧ address h = a.
Proof.
  intros Hmiss. load_cases k this a o1 p; [congruence | |];
    intros [= <- <-].
  eexists. split.
  - apply load_hit. rewrite cache_of_write. by rewrite lookup_insert_eq.
  - done.
Qed.

Lemma first_load_options_stick_witness :
  let this := MkWrapper node_ok 0 in
  let p := snd (new node_ok boot) in
  let o1 := MkTx (Some address_2) (Some 4000000%N) None in
  let o2 := MkTx (Some address_3) None (Some 6%N) in
  let first := load CoreContract this address_1 o1 p in
  cache_of this p !! cacheKey CoreContract address_1 = None ∧
  first = (Resolved (Contract (MkHandle 1 CoreContract address_1 o1)),
           snd first) ∧
  ∃ h, load CoreContract this address_1 o2 (snd first)
         = (Resolved (Contract h), snd first) ∧
       defaults h = o1 ∧ kind h = CoreContract ∧ address h = address_1.
Proof.
  intros this p o1 o2 first.
  assert (Hmiss : cache_of this p !! cacheKey CoreContract address_1 = None)
    by reflexivity.
  split; [exact Hmiss |]. split; [reflexivity |].
  exact (first_load_options_stick CoreContract this address_1 o1 o2 p
           (snd first) _ Hmiss eq_refl).
Defined.

(** X3.  The loaders of the vault and of the transfer proxy read and
    write one cache entry: when either of them has built the handle at an
    address, the other one, asked for that address, resolves to that very
    object, a binding of the kind that was loaded first, and constructs
    nothing; the [at] of its own kind is not awaited. *)
Theorem vault_and_transfer_proxy_share_one_entry (k1 k2 : ContractKind)
    (this : t) (a : Address) (o1 o2 : Tx) (p p1 : Process) (v : JsValue) :
  shares_vault_prefix k1 = true →
  shares_vault_prefix k2 = true →
  cache_of this p !! cacheKey k1 a = None →
  load k1 this a o1 p = (Resolved v, p1) →
  ∃ h, v = Contract h ∧ kind h = k1 ∧
       load k2 this a o2 p1 = (Resolved (Contract h), p1).
Proof.
  intros H1 H2 Hmiss.
  assert (Hkey : cacheKey k2 a = cacheKey k1 a).
  { destruct k1; try discriminate H1; destruct k2; try discriminate H2;
      reflexivity. }
  load_cases k1 this a o1 p; [congruence | |]; intros [= <- <-].
  eexists. split; [done |]. split; [done |].
  apply load_hit. rewrite cache_of_write, Hkey.
  by rewrite lookup_insert_eq.
Qed.

Lemma vault_and_transfer_proxy_share_one_entry_witness :
  let this := MkWrapper node_ok 0 in
  let p := snd (new node_ok boot) in
  let first := loadTransferProxyAsync this address_1 no_options p in
  let proxy := MkHandle 1 TransferProxyContract address_1 no_options in
  cache_of this p !! cacheKey TransferProxyContract address_1 = None ∧
  first = (Resolved (Contract proxy), snd first) ∧
  ∃ h, Contract proxy = Contract h ∧
       kind h = TransferProxyContract ∧
       loadVaultAsync this address_1 no_options (snd first)
         = (Resolved (Contract h), snd first).
Proof.
  intros this p first proxy.
  assert (Hmiss : cache_of this p !! cacheKey TransferProxyContract address_1
                  = None) by reflexivity.
  split; [exact Hmiss |]. split; [reflexivity |].
  exact (vault_and_transfer_proxy_share_one_entry TransferProxyContract
           VaultContract this address_1 no_options no_options p (snd first)
           _ eq_refl eq_refl Hmiss eq_refl).
Defined.

(** X4.  Two loads of one key that overlap, so that both have tested the
    cache before either resumes from its [await], each construct a
    handle: the two callers hold different objects, and the cache keeps
    the one of the load that resumed last. *)
Theorem overlapping_loads_build_two_handles (k : ContractKind) (this : t)
    (a : Address) (o1 o2 : Tx) (p : Process) :
  cache_of this p !! cacheKey k a = None →
  contract_at (web3 this) (wire p) k a = None →
  contract_at (web3 this) (wire p ++ [At k a (Some (allocated p))]) k a
    = None →
  let first := load_begin (cachePrefix k) k this a o1 p in
  let second := load_begin (cachePrefix k) k this a o2 p in
  ∃ h1 h2 p1 p2,
    load_resume this first p = (Resolved (Contract h1), p1) ∧
    load_resume this second p1 = (Resolved (Contract h2), p2) ∧
    ref h1 ≠ ref h2 ∧
    cache_of this p1 !! cacheKey k a = Some h1 ∧
    cache_of this p2 !! cacheKey k a = Some h2.
Proof.
  intros Hmiss Hat1 Hat2 first second.
  assert (Hb : ∀ o, load_begin (cachePrefix k) k this a o p
                    = AwaitingAt (cacheKey k a) k a o).
  { intros o. unfold load_begin. cbv zeta.
    change (cachePrefix k +:+ "_" +:+ a) with (cacheKey k a).
    rewrite js_in_cacheKey, bool_decide_eq_false_2; [done |].
    rewrite Hmiss. by intros [? ?]. }
  subst first second. rewrite !Hb. simpl.
  unfold bind, at_ at 1. rewrite Hat1. simpl.
  eexists _, _, _, _. split; [reflexivity |].
  unfold bind, at_. simpl. rewrite Hat2. simpl.
  split; [reflexivity |]. split; [simpl; lia |].
  unfold cache_of. simpl. rewrite !lookup_insert_eq. simpl.
  by rewrite !lookup_insert_eq.
Qed.

Lemma overlapping_loads_build_two_handles_witness :
  let this := MkWrapper node_ok 0 in
  let p := snd (new node_ok boot) in
  let first := load_begin (cachePrefix CoreContract) CoreContract this
                 address_1 no_options p in
  let second := load_begin (cachePrefix CoreContract) CoreContract this
                  address_1 no_options p in
  cache_of this p !! cacheKey CoreContract address_1 = None ∧
  ∃ h1 h2 p1 p2,
    load_resume this first p = (Resolved (Contract h1), p1) ∧
    load_resume this second p1 = (Resolved (Contract h2), p2) ∧
    ref h1 ≠ ref h2 ∧
    cache_of this p1 !! cacheKey CoreContract address_1 = Some h1 ∧
    cache_of this p2 !! cacheKey CoreContract address_1 = Some h2.
Proof.
  intros this p first second.
  assert (Hmiss : cache_of this p !! cacheKey CoreContract address_1 = None)
    by reflexivity.
  split; [exact Hmiss |].
  exact (overlapping_loads_build_two_handles CoreContract this address_1
           no_options no_options p Hmiss eq_refl eq_refl).
Defined.

(** ** Runs of loads *)

Lemma run_snd_cons (this : t) (r : Request) (rest : list Request)
    (p : Process) :
  snd (run this (r :: rest) p)
    = snd (run this rest
             (snd (load (req_kind r) this (req_address r) (req_options r) p))).
Proof.
  simpl. destruct (load _ _ _ _ _) as [o p1]. simpl.
  by destruct (run this rest p1).
Qed.

(** Where an entry of the cache after a run comes from. *)
Lemma run_entry_origin (this : t) (requests : list Request) :
  ∀ (p : Process) (key : string) (h : Handle),
    cache_of this (snd (run this requests p)) !! key = Some h →
    cache_of this p !! key = Some h ∨
    ∃ r, r ∈ requests ∧
         key = cacheKey (req_kind r) (req_address r) ∧
         kind h = req_kind r ∧ address h = req_address r ∧
         defaults h = req_options r.
Proof.
  induction requests as [|r rest IH]; intros p key h Hkey; [by left |].
  rewrite run_snd_cons in Hkey.
  destruct (IH _ _ _ Hkey) as [H1 | (r' & Hin & Hr')].
  - destruct (load_entry_origin _ _ _ _ _ _ _ H1) as [H0 | [-> ->]].
    + by left.
    + right. exists r. split; [apply list_elem_of_here | done].
  - right. exists r'. split; [by apply list_elem_of_further | done].
Qed.

(** X6.  Successive loads never evict and never overwrite: an entry of
    the cache is still there, bound to the same handle object, after any
    run of loads on that wrapper. *)
Theorem run_keeps_cache_entries (this : t) (requests : list Request)
    (p : Process) (key : string) (h : Handle) :
  cache_of this p !! key = Some h →
  cache_of this (snd (run this requests p)) !! key = Some h.
Proof.
  revert p. induction requests as [|r rest IH]; intros p Hkey; [done |].
  rewrite run_snd_cons. apply IH. by apply load_keeps_entries.
Qed.

Lemma run_keeps_cache_entries_witness :
  let this := MkWrapper node_ok 0 in
  let p := snd (loadCoreAsync this address_1 no_options
                  (snd (new node_ok boot))) in
  let requests :=
    [ MkRequest VaultContract address_1 no_options;
      MkRequest CoreContract address_1 (MkTx (Some address_2) None None);
      MkRequest CoreContract address_2 no_options ] in
  let h := MkHandle 1 CoreContract address_1 no_options in
  cache_of this p !! cacheKey CoreContract address_1 = Some h ∧
  cache_of this (snd (run this requests p)) !! cacheKey CoreContract address_1
    = Some h.
Proof.
  intros this p requests h.
  assert (H : cache_of this p !! cacheKey CoreContract address_1 = Some h)
    by reflexivity.
  split; [exact H |].
  exact (run_keeps_cache_entries this requests p _ h H).
Defined.

(** X7.  A wrapper writes to its own cache object only: whatever it
    loads, the cache of every other wrapper of the process is as it
    was. *)
Theorem run_touches_only_its_own_cache (this : t) (requests : list Request)
    (p : Process) (r : nat) :
  r ≠ cache this →
  caches (snd (run this requests p)) !! r = caches p !! r.
Proof.
  intros Hr. revert p.
  induction requests as [|q rest IH]; intros p; [done |].
  rewrite run_snd_cons, IH. by apply load_other_caches.
Qed.

Lemma run_touches_only_its_own_cache_witness :
  let this := MkWrapper node_ok 0 in
  let other := MkWrapper node_ok 1 in
  let p := snd (loadCoreAsync other address_1 no_options
                  (snd (new node_ok (snd (new node_ok boot))))) in
  let requests :=
    [ MkRequest CoreContract address_1 no_options;
      MkRequest VaultContract address_2 no_options ] in
  cache other ≠ cache this ∧
  caches (snd (run this requests p)) !! cache other = caches p !! cache other ∧
  cache_of other (snd (run this requests p)) !! cacheKey CoreContract address_1
    = Some (MkHandle 2 CoreContract address_1 no_options).
Proof.
  intros this other p requests.
  assert (Hr : cache other ≠ cache this) by (simpl; lia).
  split; [exact Hr |].
  split; [exact (run_touches_only_its_own_cache this requests p _ Hr) |].
  reflexivity.
Defined.

(** X8.  The cache holds nothing that was not asked for: an entry found
    after a run of loads was either there before, or sits under the key
    of one of the requests and is a handle of the kind, for the address
    and with the options of that request. *)
Theorem run_caches_only_what_was_requested (this : t)
    (requests : list Request) (p : Process) (key : string) (h : Handle) :
  cache_of this (snd (run this requests p)) !! key = Some h →
  cache_of this p !! key = Some h ∨
  ∃ r, r ∈ requests ∧
       key = cacheKey (req_kind r) (req_address r) ∧
       kind h = req_kind r ∧ address h = req_address r ∧
       defaults h = req_options r.
Proof. apply run_entry_origin. Qed.

Lemma run_caches_only_what_was_requested_witness :
  let this := MkWrapper node_ok 0 in
  let p := snd (new node_ok boot) in
  let requests :=
    [ MkRequest SetTokenContract address_1 no_options;
      MkRequest SetTokenContract address_1 (MkTx (Some address_2) None None) ] in
  let key := cacheKey SetTokenContract address_1 in
  let h := MkHandle 1 SetTokenContract address_1 no_options in
  cache_of this (snd (run this requests p)) !! key = Some h ∧
  (cache_of this p !! key = Some h ∨
   ∃ r, r ∈ requests ∧
        key = cacheKey (req_kind r) (req_address r) ∧
        kind h = req_kind r ∧ address h = req_address r ∧
        defaults h = req_options r).
Proof.
  intros this p requests key h.
  assert (H : cache_of this (snd (run this requests p)) !! key = Some h)
    by reflexivity.
  split; [exact H |].
  exact (run_caches_only_what_was_requested this requests p key h H).
Defined.

(** X9.  A wrapper hands out handles for the address that was asked for:
    from its construction on, every load that resolves gives a handle
    bound to the requested address, of a kind with the requested kind's
    key prefix, that is, of the requested kind itself unless that kind is
    the vault or the transfer proxy. *)
Theorem resolved_handle_is_for_the_requested_address (node : Web3)
    (p0 p p' : Process) (this : t) (requests : list Request)
    (outs : list (outcome JsValue)) (n : nat) (r : Request) (v : JsValue) :
  new node p0 = (Resolved this, p) →
  run this requests p = (outs, p') →
  requests !! n = Some r →
  outs !! n = Some (Resolved v) →
  ∃ h, v = Contract h ∧
       address h = req_address r ∧
       cachePrefix (kind h) = cachePrefix (req_kind r) ∧
       (shares_vault_prefix (req_kind r) = false → kind h = req_kind r).
Proof.
  intros Hnew Hrun Hr Hv.
  destruct (new_well_formed _ _ _ _ Hnew) as (Hempty & Hwf & Honce).
  destruct (run_invariant _ _ _ _ _ _ Hwf Honce Hrun)
    as (log1 & _ & _ & _ & _ & Houts).
  destruct (Houts _ _ _ Hr Hv) as (h & -> & Hh).
  exists h. split; [done |].
  replace p' with (snd (run this requests p)) in Hh by by rewrite Hrun.
  destruct (run_entry_origin _ _ _ _ _ Hh)
    as [H0 | (r' & _ & Hkey & Hk & Ha & _)].
  { rewrite Hempty, lookup_empty in H0. discriminate H0. }
  apply cacheKey_inj in Hkey as [Hpre Haddr].
  rewrite Hk, Ha. split; [done |]. split; [done |].
  intros Hnot. destruct (decide (req_kind r' = req_kind r)) as [|Hne]; [done |].
  symmetry in Hpre.
  destruct (cachePrefix_shared _ _ Hpre Hne) as [[_ E]|[_ E]];
    rewrite E in Hnot; discriminate Hnot.
Qed.

Lemma resolved_handle_is_for_the_requested_address_witness :
  let this := MkWrapper node_ok 0 in
  let p := snd (new node_ok boot) in
  let requests :=
    [ MkRequest MedianContract address_1 no_options;
      MkRequest MedianContract address_2 no_options;
      MkRequest WhiteListContract address_2 no_options ] in
  let r := MkRequest WhiteListContract address_2 no_options in
  let v := Contract (MkHandle 3 WhiteListContract address_2 no_options) in
  new node_ok boot = (Resolved this, p) ∧
  requests !! 2 = Some r ∧
  fst (run this requests p) !! 2 = Some (Resolved v) ∧
  ∃ h, v = Contract h ∧
       address h = req_address r ∧
       cachePrefix (kind h) = cachePrefix (req_kind r) ∧
       (shares_vault_prefix (req_kind r) = false → kind h = req_kind r).
Proof.
  intros this p requests r v.
  split; [reflexivity |]. split; [reflexivity |]. split; [reflexivity |].
  apply (resolved_handle_is_for_the_requested_address node_ok boot p
           (snd (run this requests p)) this requests
           (fst (run this requests p)) 2 r v); reflexivity.
Defined.

(** X5.  Two requests get the same cache key exactly when they are for
    the same address and for the same kind, or for the two kinds that
    share the prefix [Vault]: an address is never confused with another
    one, whatever characters it contains, and two loaders are never
    confused except the vault and the transfer proxy. *)
Theorem cacheKey_collisions (k1 k2 : ContractKind) (a1 a2 : Address) :
  cacheKey k1 a1 = cacheKey k2 a2 ↔
  a1 = a2 ∧
  (k1 = k2 ∨ shares_vault_prefix k1 && shares_vault_prefix k2 = true).
Proof.
  split.
  - intros H. apply cacheKey_inj in H as [Hpre ->]. split; [done |].
    destruct (decide (k1 = k2)) as [|Hne]; [by left | right].
    by destruct (cachePrefix_shared _ _ Hpre Hne) as [[-> ->]|[-> ->]].
  - intros [-> [-> | Hshare]]; [done |].
    destruct k1; try discriminate Hshare;
      destruct k2; try discriminate Hshare; reflexivity.
Qed.

End ResolverExtras.

(* ================================================================== *)
(** * The viewer wrapper *)
(* ================================================================== *)

Module ViewerFacts.
Import ProtocolContractWrapper ResolverFacts Programs Examples.

Lemma calls_issued_app (l1 l2 : list Interaction) :
  calls_issued (l1 ++ l2) = calls_issued l1 ++ calls_issued l2.
Proof.
  induction l1 as [|i l1 IH]; [done |].
  destruct i; simpl; by rewrite ?IH.
Qed.

(** The three ways a viewer call goes, with the process it leaves. *)
Lemma perform_cases (this : ProtocolViewerWrapper.t) (c : ViewerCall)
    (p : Process) :
  let resolver := ProtocolViewerWrapper.contracts this in
  let viewer := ProtocolViewerWrapper.protocolViewerAddress this in
  let node := ProtocolViewerWrapper.web3 this in
  perform this c p =
    match cache_of resolver p !! cacheKey ProtocolViewerContract viewer with
    | Some h =>
        (eth_call node (wire p) h (viewer_method c),
         MkProcess (allocated p) (caches p)
                   (wire p ++ [Call h (viewer_method c)]))
    | None =>
        match contract_at (web3 resolver) (wire p)
                ProtocolViewerContract viewer with
        | Some message =>
            (Rejected message,
             MkProcess (allocated p) (caches p)
                       (wire p ++ [At ProtocolViewerContract viewer None]))
        | None =>
            let h := MkHandle (allocated p) ProtocolViewerContract viewer
                              no_options in
            let log := wire p ++ [At ProtocolViewerContract viewer
                                     (Some (allocated p))] in
            (eth_call node log h (viewer_method c),
             MkProcess (S (allocated p))
               (<[cache resolver :=
                    <[cacheKey ProtocolViewerContract viewer := h]>
                      (cache_of resolver p)]> (caches p))
               (log ++ [Call h (viewer_method c)]))
        end
    end.
Proof.
  intros resolver viewer node.
  assert (E : perform this c p =
              (await instance :=
                 load ProtocolViewerContract resolver viewer no_options in
               callOn node instance (viewer_method c)) p)
    by (by destruct c).
  rewrite E. unfold bind.
  load_cases ProtocolViewerContract resolver viewer no_options p;
    reflexivity.
Qed.

(** X10.  None of the four methods of the viewer wrapper validates or
    reshapes anything: whatever strings and lists it is given (malformed
    addresses and empty lists included), the method resolves or rejects
    exactly as the one read it makes on the viewer handle does, with its
    arguments as they were passed, or as the awaited [at] does when the
    handle is not cached and cannot be built. *)
Theorem viewer_call_settles_as_the_node (this : ProtocolViewerWrapper.t)
    (c : ViewerCall) (p : Process) :
  let resolver := ProtocolViewerWrapper.contracts this in
  let viewer := ProtocolViewerWrapper.protocolViewerAddress this in
  let node := ProtocolViewerWrapper.web3 this in
  fst (perform this c p) =
    match cache_of resolver p !! cacheKey ProtocolViewerContract viewer with
    | Some h => eth_call node (wire p) h (viewer_method c)
    | None =>
        match contract_at (web3 resolver) (wire p)
                ProtocolViewerContract viewer with
        | Some message => Rejected message
        | None =>
            eth_call node
              (wire p ++ [At ProtocolViewerContract viewer
                             (Some (allocated p))])
              (MkHandle (allocated p) ProtocolViewerContract viewer
                        no_options)
              (viewer_method c)
        end
    end.
Proof.
  intros resolver viewer node. rewrite perform_cases. cbv zeta.
  fold resolver viewer node.
  destruct (cache_of resolver p !! _); [done |].
  by destruct (contract_at _ _ _ _).
Qed.

Lemma perform_log_ok (this : ProtocolViewerWrapper.t) (c : ViewerCall)
    (p : Process) (log : list Interaction) :
  viewer_log_ok this p log →
  ∃ log1,
    wire (snd (perform this c p)) = wire p ++ log1 ∧
    viewer_log_ok this (snd (perform this c p)) (log ++ log1).
Proof.
  unfold viewer_log_ok. cbv zeta. rewrite perform_cases. cbv zeta.
  set (resolver := ProtocolViewerWrapper.contracts this).
  set (viewer := ProtocolViewerWrapper.protocolViewerAddress this).
  intros [Hall Hcache].
  destruct (cache_of resolver p !! cacheKey ProtocolViewerContract viewer)
    as [h|] eqn:Hc.
  - destruct Hcache as (Hk & Ha & Hlen & Hcalls).
    exists [Call h (viewer_method c)]. simpl. split; [done |].
    rewrite cache_of_same_caches, Hc.
    rewrite constructions_app, calls_issued_app. simpl. rewrite app_nil_r.
    split; [| split; [done | split; [done | split; [done |]]]].
    + apply Forall_app. split; [done |]. by repeat constructor.
    + apply Forall_app. split; [done |]. by repeat constructor.
  - destruct Hcache as [Hcons Hcalls].
    destruct (contract_at (web3 resolver) (wire p) ProtocolViewerContract
                          viewer) as [m|].
    + exists [At ProtocolViewerContract viewer None]. simpl.
      split; [done |]. rewrite cache_of_same_caches, Hc.
      rewrite constructions_app, calls_issued_app. simpl.
      rewrite !app_nil_r. split; [| done].
      apply Forall_app. split; [done |]. by repeat constructor.
    + eexists [At ProtocolViewerContract viewer (Some (allocated p)); Call _ _].
      simpl. rewrite <- app_assoc. split; [done |].
      rewrite cache_of_write, lookup_insert_eq.
      rewrite constructions_app, calls_issued_app, Hcons, Hcalls. simpl.
      rewrite bool_decide_eq_true_2 by done. simpl.
      split; [| split; [done | split; [done | split; [lia |]]]].
      * apply Forall_app. split; [done |]. by repeat constructor.
      * by repeat constructor.
Qed.

Lemma perform_all_snd_cons (this : ProtocolViewerWrapper.t) (c : ViewerCall)
    (rest : list ViewerCall) (p : Process) :
  snd (perform_all this (c :: rest) p)
    = snd (perform_all this rest (snd (perform this c p))).
Proof.
  simpl. destruct (perform this c p) as [o p1]. simpl.
  by destruct (perform_all this rest p1).
Qed.

Lemma perform_all_log_ok (this : ProtocolViewerWrapper.t)
    (calls : list ViewerCall) :
  ∀ (p : Process) (log : list Interaction),
    viewer_log_ok this p log →
    ∃ log1,
      wire (snd (perform_all this calls p)) = wire p ++ log1 ∧
      viewer_log_ok this (snd (perform_all this calls p)) (log ++ log1).
Proof.
  induction calls as [|c rest IH]; intros p log Hok.
  - exists []. by rewrite !app_nil_r.
  - rewrite perform_all_snd_cons.
    destruct (perform_log_ok this c p log Hok) as (log1 & Hw1 & Hok1).
    destruct (IH _ _ Hok1) as (log2 & Hw2 & Hok2).
    exists (log1 ++ log2). rewrite Hw2, Hw1, <- !app_assoc.
    split; [done |]. by rewrite <- app_assoc in Hok2.
Qed.

(** X11.  A viewer wrapper whose calls are awaited one after the other
    talks to the viewer contract only, through one handle: from its
    construction on, whatever methods are called on it and however often,
    each call settled before the next is made, everything it puts on the
    wire is an [at] or a read of the viewer contract at the configured
    address, the handle is constructed at most once, and all reads go
    through the same handle object. *)
Theorem viewer_wrapper_uses_one_viewer_handle (node : Web3)
    (viewer : Address) (p0 p : Process) (this : ProtocolViewerWrapper.t)
    (calls : list ViewerCall) :
  ProtocolViewerWrapper.new node viewer p0 = (Resolved this, p) →
  let log := drop (length (wire p)) (wire (snd (perform_all this calls p))) in
  Forall (about_viewer viewer) log ∧
  length (constructions ProtocolViewerContract viewer log) ≤ 1 ∧
  ∀ x y, x ∈ calls_issued log → y ∈ calls_issued log → x.1 = y.1.
Proof.
  intros Hnew.
  assert (Hstart : viewer_log_ok this p [] ∧
                   ProtocolViewerWrapper.protocolViewerAddress this = viewer).
  { unfold ProtocolViewerWrapper.new, bind, new, resolve in Hnew.
    injection Hnew as <- <-. split; [| done].
    unfold viewer_log_ok. cbv zeta. simpl.
    split; [constructor |].
    unfold cache_of. simpl. rewrite lookup_insert_eq. simpl.
    by rewrite lookup_empty. }
  destruct Hstart as [Hok Hv].
  destruct (perform_all_log_ok this calls p [] Hok) as (log1 & Hw & Hok1).
  cbv zeta. rewrite Hw, drop_app_length.
  unfold viewer_log_ok in Hok1. cbv zeta in Hok1. rewrite Hv in Hok1.
  simpl in Hok1. destruct Hok1 as [Hall Hcache].
  split; [done |].
  destruct (cache_of _ _ !! _) as [h|].
  - destruct Hcache as (_ & _ & Hlen & Hcalls). split; [done |].
    rewrite Forall_forall in Hcalls.
    intros x y Hx Hy. by rewrite (Hcalls x Hx), (Hcalls y Hy).
  - destruct Hcache as [-> ->]. split; [simpl; lia |].
    intros x y Hx. by apply elem_of_nil in Hx.
Qed.

Lemma viewer_wrapper_uses_one_viewer_handle_witness :
  let this :=
    ProtocolViewerWrapper.MkProtocolViewerWrapper node_ok
      (MkWrapper node_ok 0) address_3 in
  let p := snd (ProtocolViewerWrapper.new node_ok address_3 boot) in
  let calls :=
    [ CallBatchFetchSupplies [address_1; address_2];
      CallFetchRebalanceProposalState "not an address";
      CallBatchFetchBalancesOf [] address_1 ] in
  let log := drop (length (wire p)) (wire (snd (perform_all this calls p))) in
  ProtocolViewerWrapper.new node_ok address_3 boot = (Resolved this, p) ∧
  length (calls_issued log) = 3 ∧
  Forall (about_viewer address_3) log ∧
  length (constructions ProtocolViewerContract address_3 log) ≤ 1 ∧
  ∀ x y, x ∈ calls_issued log → y ∈ calls_issued log → x.1 = y.1.
Proof.
  intros this p calls log.
  split; [reflexivity |]. split; [reflexivity |].
  exact (viewer_wrapper_uses_one_viewer_handle node_ok address_3 boot p this
           calls eq_refl).
Defined.

End ViewerFacts.

(* ================================================================== *)
(** * The ERC20 facade: order of the checks, footprint of batch reads *)
(* ================================================================== *)

Module FacadeExtras.
Import Text SchemaAssertions ERC20API ProtocolContractWrapper ResolverFacts
  FacadeFacts Programs ViewerFacts Examples.

Lemma first_failure_app (pre post : list (string * Address))
    (arg : string * Address) :
  Forall (λ x, matches_address_pattern x.2 = true) pre →
  matches_address_pattern arg.2 = false →
  first_failure (pre ++ arg :: post) = Some arg.
Proof.
  intros Hpre Harg. unfold first_failure, Address in *.
  induction Hpre as [|x pre Hx _ IH]; cbn [app find].
  - by rewrite Harg.
  - by rewrite Hx.
Qed.

(** X12.  The checks of a method run in the order its assertion makes
    them and stop at the first that fails: when every check before the
    one of argument [variableName] passes and that one fails, the method
    rejects with the error of that argument, whatever the later arguments
    are, and leaves the process as it was.  For [getBalancesOfAsync] the
    first check is the one of [userAddress], ahead of the token list. *)
Theorem first_failing_check_is_reported (this : ERC20API.t) (i : Invocation)
    (p : Process) (pre post : list (string * Address))
    (variableName : string) (value : Address) :
  checks i = pre ++ (variableName, value) :: post →
  Forall (λ arg, matches_address_pattern arg.2 = true) pre →
  matches_address_pattern value = false →
  invoke this i p = (Rejected (validation_error variableName value), p).
Proof.
  intros Hchecks Hpre Hvalue.
  rewrite invoke_validates_first, Hchecks.
  by rewrite (first_failure_app pre post (variableName, value) Hpre Hvalue).
Qed.

Lemma first_failing_check_is_reported_witness :
  let tokenAddresses := ["InvalidTokenAddress"; address_1] in
  let i := GetBalancesOf tokenAddresses "InvalidUserAddress" in
  checks i = [] ++ ("userAddress", "InvalidUserAddress")
                :: map (λ a, ("tokenAddress", a)) tokenAddresses ∧
  getBalancesOfAsync (facade_on node_ok) tokenAddresses "InvalidUserAddress"
      started
    = (Rejected (validation_error "userAddress" "InvalidUserAddress"),
       started).
Proof.
  intros tokenAddresses i. split; [reflexivity |].
  apply (first_failing_check_is_reported (facade_on node_ok) i started []
           (map (λ a, ("tokenAddress", a)) tokenAddresses)
           "userAddress" "InvalidUserAddress").
  - reflexivity.
  - constructor.
  - reflexivity.
Defined.

Lemma issued_perform (this : ProtocolViewerWrapper.t) (c : ViewerCall)
    (p : Process) :
  let resolver := ProtocolViewerWrapper.contracts this in
  let viewer := ProtocolViewerWrapper.protocolViewerAddress this in
  issued p (snd (perform this c p)) =
    match cache_of resolver p !! cacheKey ProtocolViewerContract viewer with
    | Some h => [(h, viewer_method c)]
    | None =>
        match contract_at (web3 resolver) (wire p)
                ProtocolViewerContract viewer with
        | Some _ => []
        | None =>
            [(MkHandle (allocated p) ProtocolViewerContract viewer no_options,
              viewer_method c)]
        end
    end.
Proof.
  intros resolver viewer. unfold issued. rewrite perform_cases. cbv zeta.
  fold resolver viewer.
  destruct (cache_of resolver p !! _); simpl.
  - by rewrite drop_app_length.
  - destruct (contract_at _ _ _ _); simpl.
    + by rewrite drop_app_length.
    + by rewrite <- app_assoc, drop_app_length.
Qed.

(** X13.  A batch read is one contract call, whatever the length of the
    list: with well-formed addresses, [getTotalSuppliesAsync] and
    [getBalancesOfAsync] each put exactly one call on the wire (none when
    the viewer handle cannot be built), on the viewer handle, and that
    call carries the list as it was submitted: same addresses, same
    order, duplicates kept, the empty list included. *)
Theorem batch_read_is_one_call (this : ERC20API.t) (tokenAddresses : list Address)
    (userAddress : Address) (p : Process) :
  Forall (λ a, matches_address_pattern a = true) tokenAddresses →
  matches_address_pattern userAddress = true →
  let resolver := ProtocolViewerWrapper.contracts (protocolViewerWrapper this) in
  let viewer :=
    ProtocolViewerWrapper.protocolViewerAddress (protocolViewerWrapper this) in
  let expected (m : Method) : list (Handle * Method) :=
    match cache_of resolver p !! cacheKey ProtocolViewerContract viewer with
    | Some h => [(h, m)]
    | None =>
        match contract_at (web3 resolver) (wire p)
                ProtocolViewerContract viewer with
        | Some _ => []
        | None =>
            [(MkHandle (allocated p) ProtocolViewerContract viewer no_options,
              m)]
        end
    end in
  issued p (snd (getTotalSuppliesAsync this tokenAddresses p))
    = expected (BatchFetchSupplies tokenAddresses) ∧
  issued p (snd (getBalancesOfAsync this tokenAddresses userAddress p))
    = expected (BatchFetchBalancesOf tokenAddresses userAddress).
Proof.
  intros Htokens Huser resolver viewer expected.
  assert (Hs : well_formed_arguments (GetTotalSupplies tokenAddresses)).
  { unfold well_formed_arguments. simpl. by apply Forall_fmap. }
  assert (Hb : well_formed_arguments (GetBalancesOf tokenAddresses userAddress)).
  { unfold well_formed_arguments. simpl. apply Forall_app. split.
    - by apply Forall_fmap.
    - by repeat constructor. }
  pose proof (invoke_forwards this _ p Hs) as Es.
  pose proof (invoke_forwards this _ p Hb) as Eb.
  simpl in Es, Eb. rewrite Es, Eb. split.
  - exact (issued_perform (protocolViewerWrapper this)
             (CallBatchFetchSupplies tokenAddresses) p).
  - exact (issued_perform (protocolViewerWrapper this)
             (CallBatchFetchBalancesOf tokenAddresses userAddress) p).
Qed.

Lemma batch_read_is_one_call_witness :
  let tokenAddresses := [address_1; address_2; address_1] in
  let h := MkHandle 2 ProtocolViewerContract address_3 no_options in
  issued started
      (snd (getTotalSuppliesAsync (facade_on node_viewer) tokenAddresses
              started))
    = [(h, BatchFetchSupplies tokenAddresses)] ∧
  issued started
      (snd (getBalancesOfAsync (facade_on node_viewer) tokenAddresses
              address_2 started))
    = [(h, BatchFetchBalancesOf tokenAddresses address_2)].
Proof.
  intros tokenAddresses h.
  apply (batch_read_is_one_call (facade_on node_viewer) tokenAddresses
           address_2 started).
  - repeat constructor.
  - reflexivity.
Defined.

End FacadeExtras.
